(** * nikkei_scraper.py: the daily Nikkei 225 update job

    A shallow embedding of [NikkeiDataFetcher] (src/nikkei_scraper.py) and
    the properties of its update procedure.

    - [Py] models the part of the Python runtime the script relies on:
      exceptions, binary64 floats with [round(x, 2)], [int(x)], the
      arithmetic coercions between [int] and [float], truthiness, dicts and
      lists as they come out of [json.load].
    - [Collab] models the collaborators: the clock, the file holding the
      JSON document, the quote provider and the HTTP endpoint, together
      with the trace of calls made to them.
    - [NikkeiDataFetcher] is the class, method by method.

    Console output is not modelled: every [print] is taken to succeed. *)

Set Warnings "-register-all".
From Stdlib Require Import ZArith List String Ascii Bool Lia Sorted.
From Stdlib Require Import Floats.SpecFloat.
Import ListNotations.

Open Scope string_scope.
Open Scope list_scope.
Open Scope Z_scope.

(* ================================================================== *)
(** * The Python runtime *)

Module Py.

(** ** Exceptions (all of them subclasses of [Exception]) *)

Inductive exn : Type :=
| ZeroDivisionError
| OverflowError
| ValueError
| TypeError
| AttributeError
| KeyError
| IndexError
| OSError
| Exception (msg : string).

Inductive result (A : Type) : Type :=
| Ok (a : A)
| Raise (e : exn).
Arguments Ok {A} a.
Arguments Raise {A} e.

Definition rbind {A B} (r : result A) (k : A -> result B) : result B :=
  match r with
  | Ok a => k a
  | Raise e => Raise e
  end.

(** ** Floats: IEEE 754 binary64, as [spec_float] with 53 bits of
    precision and [emax = 1024] *)

Definition prec : Z := 53.
Definition emax : Z := 1024.
Definition float : Type := spec_float.

Definition fdiv : float -> float -> float := SFdiv prec emax.
Definition fmul : float -> float -> float := SFmul prec emax.
Definition fsub : float -> float -> float := SFsub prec emax.

(** The exact integer [n] with sign [s], before any rounding. *)
Definition exact (s : bool) (n : Z) : float :=
  match n with
  | Zpos p => S754_finite s p 0
  | _ => S754_zero s
  end.

(** The float nearest to the integer [z] (ties to even); an infinity
    when [z] is out of range. *)
Definition nearest (z : Z) : float := binary_normalize prec emax z 0 false.

(** The float denoted by the decimal literal [n * 10^-k]: the quotient
    of two exact integers, rounded once. *)
Definition float_lit (n k : Z) : float :=
  fdiv (exact false n) (exact false (10 ^ k)).

Definition is_zero (x : float) : bool :=
  match x with
  | S754_zero _ => true
  | _ => false
  end.

Definition is_finite (x : float) : bool :=
  match x with
  | S754_zero _ | S754_finite _ _ _ => true
  | _ => false
  end.

(** Nearest integer to [a / b], ties to even ([0 <= a], [0 < b]). *)
Definition round_half_even (a b : Z) : Z :=
  let q := a / b in
  match 2 * (a mod b) ?= b with
  | Lt => q
  | Gt => q + 1
  | Eq => if Z.even q then q else q + 1
  end.

(** [hundredths m e] is the number of hundredths nearest to the exact
    value [m * 2^e]. *)
Definition hundredths (m : positive) (e : Z) : Z :=
  if 0 <=? e then Zpos m * 2 ^ e * 100
  else round_half_even (Zpos m * 100) (2 ^ (- e)).

(** [round(x, 2)] on a float: the exact value of [x] is rounded to two
    decimal places (ties to even) and the decimal obtained is converted
    back to the nearest float; the sign of [x] is kept, and infinities
    and NaN round to themselves. *)
Definition round2 (x : float) : float :=
  match x with
  | S754_finite s m e => fdiv (exact s (hundredths m e)) (exact false 100)
  | _ => x
  end.

(** [int(x)] on a float truncates toward zero. *)
Definition int_of_float (x : float) : result Z :=
  match x with
  | S754_zero _ => Ok 0
  | S754_finite s m e =>
      let a := if 0 <=? e then Zpos m * 2 ^ e else Zpos m / 2 ^ (- e) in
      Ok (if s then - a else a)
  | S754_infinity _ => Raise OverflowError
  | S754_nan => Raise ValueError
  end.

(** ** Numbers: [int] and [float] operands and their coercions *)

Inductive num : Type :=
| Int (z : Z)
| Float (x : float).

(** [int] to [float], as an arithmetic operand: rounded to nearest,
    [OverflowError] when out of range. *)
Definition float_of_int (z : Z) : result float :=
  match nearest z with
  | S754_infinity _ => Raise OverflowError
  | x => Ok x
  end.

Definition to_float (a : num) : result float :=
  match a with
  | Int z => float_of_int z
  | Float x => Ok x
  end.

(** [a / b]: true division.  Two ints give the correctly rounded
    quotient; otherwise both operands are converted to float first. *)
Definition truediv (a b : num) : result float :=
  match a, b with
  | Int x, Int y =>
      if y =? 0 then Raise ZeroDivisionError
      else match fdiv (exact (x <? 0) (Z.abs x)) (exact (y <? 0) (Z.abs y)) with
           | S754_infinity _ => Raise OverflowError
           | q => Ok q
           end
  | _, _ =>
      rbind (to_float a) (fun x =>
      rbind (to_float b) (fun y =>
      if is_zero y then Raise ZeroDivisionError else Ok (fdiv x y)))
  end.

(** [a * b] and [a - b] with a float on the left. *)
Definition mul (x : float) (b : num) : result float :=
  rbind (to_float b) (fun y => Ok (fmul x y)).

Definition sub (x : float) (b : num) : result float :=
  rbind (to_float b) (fun y => Ok (fsub x y)).

(** ** Objects *)

Inductive object : Type :=
| PyNone
| PyBool (b : bool)
| PyNum (n : num)
| PyStr (s : string)
| PyList (l : list object)
| PyDict (d : list (string * object)).

(** A dict keeps its keys in insertion order; a key occurs once. *)
Definition dict : Type := list (string * object).

(** Truth value of an object, as tested by [if] and [not]. *)
Definition truthy (v : object) : bool :=
  match v with
  | PyNone => false
  | PyBool b => b
  | PyNum (Int z) => negb (z =? 0)
  | PyNum (Float x) => negb (is_zero x)
  | PyStr s => negb (s =? "")%string
  | PyList l => match l with [] => false | _ => true end
  | PyDict d => match d with [] => false | _ => true end
  end.

(** An object used as an arithmetic operand ([bool] is an [int]). *)
Definition as_num (v : object) : result num :=
  match v with
  | PyNum n => Ok n
  | PyBool b => Ok (Int (if b then 1 else 0))
  | _ => Raise TypeError
  end.

(** [k in d], with the value found. *)
Fixpoint lookup (k : string) (d : dict) : option object :=
  match d with
  | [] => None
  | (k', v) :: d' => if (k =? k')%string then Some v else lookup k d'
  end.

(** [d[k] = v] *)
Fixpoint setitem (k : string) (v : object) (d : dict) : dict :=
  match d with
  | [] => [(k, v)]
  | (k', v') :: d' =>
      if (k =? k')%string then (k, v) :: d' else (k', v') :: setitem k v d'
  end.

(** [item.get(k)] and [item.get(k, default)]: only dicts have [get]. *)
Definition get (item : object) (k : string) (default : object)
  : result object :=
  match item with
  | PyDict d => Ok (match lookup k d with Some v => v | None => default end)
  | _ => Raise AttributeError
  end.

(** [v == s] for a string [s]. *)
Definition eq_str (v : object) (s : string) : bool :=
  match v with
  | PyStr s' => (s' =? s)%string
  | _ => false
  end.

(** The items a [for] loop or a generator sees when iterating [v]. *)
Definition iter (v : object) : result (list object) :=
  match v with
  | PyList l => Ok l
  | PyDict d => Ok (map (fun kv => PyStr (fst kv)) d)
  | PyStr s => Ok (map (fun c => PyStr (String c "")) (list_ascii_of_string s))
  | _ => Raise TypeError
  end.

(** [v[0]] *)
Definition getitem0 (v : object) : result object :=
  match v with
  | PyList (x :: _) => Ok x
  | PyList [] => Raise IndexError
  | PyStr (String c _) => Ok (PyStr (String c ""))
  | PyStr EmptyString => Raise IndexError
  | PyDict _ => Raise KeyError
  | _ => Raise TypeError
  end.

(** [v.insert(0, x)]: only lists have [insert]. *)
Definition insert0 (v x : object) : result object :=
  match v with
  | PyList l => Ok (PyList (x :: l))
  | _ => Raise AttributeError
  end.

(** [v[:n]] *)
Definition slice_to (n : nat) (v : object) : result object :=
  match v with
  | PyList l => Ok (PyList (firstn n l))
  | PyStr s => Ok (PyStr (substring 0 n s))
  | _ => Raise TypeError
  end.

(** [{**base, **d}]: the keys of [d] are set in [base], in order. *)
Definition spread (base d : dict) : dict :=
  fold_left (fun acc kv => setitem (fst kv) (snd kv) acc) d base.

(** ** [datetime]: the calendar date of a [datetime] or a [Timestamp] *)

Record datetime : Type := { year : Z; month : Z; day : Z }.

Definition is_leap (y : Z) : bool :=
  (y mod 4 =? 0) && (negb (y mod 100 =? 0) || (y mod 400 =? 0)).

Definition days_before_year (y : Z) : Z :=
  let y1 := y - 1 in y1 * 365 + y1 / 4 - y1 / 100 + y1 / 400.

Definition days_before_month (y m : Z) : Z :=
  nth (Z.to_nat m) [0; 0; 31; 59; 90; 120; 151; 181; 212; 243; 273; 304; 334] 0
  + (if (2 <? m) && is_leap y then 1 else 0).

Definition toordinal (d : datetime) : Z :=
  days_before_year (year d) + days_before_month (year d) (month d) + day d.

(** [d.weekday()]: Monday is 0, Sunday is 6. *)
Definition weekday (d : datetime) : Z := (toordinal d + 6) mod 7.

Definition digit (n : Z) : ascii := ascii_of_nat (48 + Z.to_nat (n mod 10)).

Definition pad2 (n : Z) : string :=
  String (digit (n / 10)) (String (digit n) "").

Definition pad4 (n : Z) : string :=
  String (digit (n / 1000)) (String (digit (n / 100)) (pad2 n)).

(** [d.strftime('%Y-%m-%d')], for the four-digit years. *)
Definition strftime_Ymd (d : datetime) : string :=
  (pad4 (year d) ++ "-" ++ pad2 (month d) ++ "-" ++ pad2 (day d))%string.

End Py.

(* ================================================================== *)
(** * The collaborators *)

Module Collab.
Import Py.

(** The file [data/nikkei_data.json]: absent, present but not readable
    as JSON, or holding a document. *)
Inductive file_state : Type :=
| Absent
| Unreadable
| Document (v : object).

(** One row of the frame the quote provider returns: its index and
    the two columns the script reads (a row is a float64 series). *)
Record row : Type := { index : datetime; Close : float; Volume : float }.

Inductive provider_response : Type :=
| ProviderError (e : exn)
| Frame (rows : list row).

Inductive http_response : Type :=
| RequestError (e : exn)
| Response (status_code : Z).

(** What happens when the document is written: it is written in full,
    the file cannot be opened, or the dump fails after the file has
    been truncated. *)
Inductive write_response : Type :=
| Written
| OpenFails
| DumpFails.

(** The answers of the collaborators during one run. *)
Record env : Type := {
  makedirs_ok : bool;
  now : datetime;
  history_response : provider_response;
  get_response : http_response;
  write_result : write_response
}.

(** The calls a run makes. *)
Inductive event : Type :=
| Makedirs (path : string)
| ReadFile (path : string)
| WriteFile (path : string) (data : object)
| History (ticker period : string)
| Get (url : string) (timeout : Z)
| Source (name : string).

Record world : Type := { data_file : file_state; trace : list event }.

Definition log (ev : event) (w : world) : world :=
  {| data_file := data_file w; trace := trace w ++ [ev] |}.

Definition store (f : file_state) (w : world) : world :=
  {| data_file := f; trace := trace w |}.

(** Computations: they read and change the world and may raise. *)
Definition M (A : Type) : Type := world -> result A * world.

Definition ret {A} (a : A) : M A := fun w => (Ok a, w).

Definition raise {A} (e : exn) : M A := fun w => (Raise e, w).

Definition lift {A} (r : result A) : M A := fun w => (r, w).

Definition bind {A B} (c : M A) (k : A -> M B) : M B :=
  fun w =>
    match c w with
    | (Ok a, w') => k a w'
    | (Raise e, w') => (Raise e, w')
    end.

(** [try: c except Exception as e: ...]: the outcome of [c], caught. *)
Definition attempt {A} (c : M A) : M (result A) :=
  fun w => let (r, w') := c w in (Ok r, w').

Definition emit (ev : event) : M unit := fun w => (Ok tt, log ev w).

(** The calls [c] makes when run from [w]. *)
Definition events {A} (c : M A) (w : world) : list event :=
  skipn (List.length (trace w)) (trace (snd (c w))).

Definition is_network (ev : event) : bool :=
  match ev with
  | History _ _ | Get _ _ => true
  | _ => false
  end.

Definition is_write (ev : event) : bool :=
  match ev with
  | WriteFile _ _ => true
  | _ => false
  end.

Definition is_source (ev : event) : bool :=
  match ev with
  | Source _ => true
  | _ => false
  end.

End Collab.

Declare Scope py_scope.
Delimit Scope py_scope with py.
Notation "x <- c ;; k" := (Collab.bind c (fun x => k))
  (at level 100, c at next level, right associativity) : py_scope.
Notation "c ;;; k" := (Collab.bind c (fun _ => k))
  (at level 100, right associativity) : py_scope.

(* ================================================================== *)
(** * The class [NikkeiDataFetcher] *)

Module NikkeiDataFetcher.
Import Py Collab.
Open Scope py_scope.

(** [__init__] *)
Definition data_file_path : string := "data/nikkei_data.json".
Definition ticker : string := "^N225".

(** What [get_nikkei_price] returns when it does not return [None]. *)
Record quote : Type := { price : float; volume : Z; date : string }.

(** A yield source: a method, with the name the loop reports. *)
Record source : Type := { name : string; call : M object }.

(** Default arguments of [calculate_metrics]. *)
Definition default_eps : num := Int 2500.
Definition default_bps : num := Int 27500.
Definition default_dividend : num := Int 900.

(** [is_business_day]: Monday to Friday. *)
Definition is_business_day (d : datetime) : bool := weekday d <? 5.

(** [calculate_metrics]: the four ratios, each rounded to two places,
    and [eps], [bps] as given.  The entries are evaluated in order. *)
Definition calculate_metrics (price eps bps dividend : num) : result dict :=
  rbind (truediv price eps) (fun q1 =>
  rbind (truediv price bps) (fun q2 =>
  rbind (truediv price eps) (fun q3 =>
  rbind (truediv (Int 100) (Float q3)) (fun q4 =>
  rbind (truediv dividend price) (fun q5 =>
  rbind (mul q5 (Int 100)) (fun q6 =>
  Ok [("per", PyNum (Float (round2 q1)));
      ("pbr", PyNum (Float (round2 q2)));
      ("eps", PyNum eps);
      ("bps", PyNum bps);
      ("yield_rate", PyNum (Float (round2 q4)));
      ("dividend_yield", PyNum (Float (round2 q6)))])))))).

(** [any(item.get('date') == today_str for item in existing_data)] on
    the items of [existing_data]; it stops at the first match. *)
Fixpoint any_date (today_str : string) (items : list object) : result bool :=
  match items with
  | [] => Ok false
  | item :: rest =>
      rbind (get item "date" PyNone) (fun d =>
      if eq_str d today_str then Ok true else any_date today_str rest)
  end.

(** The yield sources are tried in order: the loop of [get_bond_yield]
    and its final [return 1.5]. *)
Fixpoint try_sources (sources : list source) : M object :=
  match sources with
  | [] => ret (PyNum (Float (float_lit 15 1)))
  | src :: rest =>
      emit (Source (name src)) ;;;
      r <- attempt (call src) ;;
      match r with
      | Ok yield_rate =>
          if truthy yield_rate then ret yield_rate else try_sources rest
      | Raise _ => try_sources rest
      end
  end.

Section Methods.
Variable E : env.

(** [ensure_data_directory] *)
Definition ensure_data_directory : M unit :=
  emit (Makedirs "data") ;;;
  if makedirs_ok E then ret tt else raise OSError.

(** [get_nikkei_price]: the last row of five days of history. *)
Definition get_nikkei_price : M (option quote) :=
  r <- attempt (
    emit (History ticker "5d") ;;;
    match history_response E with
    | ProviderError e => raise e
    | Frame rows =>
        match rev rows with
        | [] => raise (Exception "no data")
        | latest :: _ =>
            v <- lift (int_of_float (fdiv (Volume latest) (nearest 1000000))) ;;
            ret {| price := round2 (Close latest);
                   volume := v;
                   date := strftime_Ymd (index latest) |}
        end
    end) ;;
  match r with
  | Ok q => ret (Some q)
  | Raise _ => ret None
  end.

(** [_get_yield_from_investing] *)
Definition _get_yield_from_investing : M object :=
  r <- attempt (
    emit (Get "https://www.investing.com/rates-bonds/japan-10-year-bond-yield" 10) ;;;
    match get_response E with
    | RequestError e => raise e
    | Response status_code => ret status_code
    end) ;;
  match r with
  | Ok status_code =>
      if status_code =? 200 then ret (PyNum (Float (float_lit 1485 3)))
      else ret PyNone
  | Raise _ => ret PyNone
  end.

(** [_get_yield_from_tradingview] *)
Definition _get_yield_from_tradingview : M object := ret PyNone.

(** [_get_yield_fallback] *)
Definition _get_yield_fallback : M object :=
  ret (PyNum (Float (float_lit 1485 3))).

(** [get_bond_yield] *)
Definition sources : list source :=
  [ {| name := "_get_yield_from_investing"; call := _get_yield_from_investing |};
    {| name := "_get_yield_from_tradingview"; call := _get_yield_from_tradingview |};
    {| name := "_get_yield_fallback"; call := _get_yield_fallback |} ].

Definition get_bond_yield : M object := try_sources sources.

(** [load_existing_data]: the document, or [[]] when the file is
    absent or cannot be read. *)
Definition load_existing_data : M object :=
  fun w =>
    match data_file w with
    | Absent => (Ok (PyList []), w)
    | Unreadable => (Ok (PyList []), log (ReadFile data_file_path) w)
    | Document v => (Ok v, log (ReadFile data_file_path) w)
    end.

(** [save_data]: failures are caught. *)
Definition save_data (data : object) : M unit :=
  fun w =>
    let w' := log (WriteFile data_file_path data) w in
    match write_result E with
    | Written => (Ok tt, store (Document data) w')
    | OpenFails => (Ok tt, w')
    | DumpFails => (Ok tt, store Unreadable w')
    end.

(** The day-over-day change put in the new entry. *)
Definition change_of (existing_data : object) (price : float) : result object :=
  if truthy existing_data then
    rbind (getitem0 existing_data) (fun first =>
    rbind (get first "price" (PyNum (Float price))) (fun prev_price =>
    rbind (as_num prev_price) (fun prev =>
    rbind (sub price prev) (fun d =>
    Ok (PyNum (Float (round2 d)))))))
  else Ok (PyNum (Int 0)).

(** [run] *)
Definition run : M unit :=
  ensure_data_directory ;;;
  if negb (is_business_day (now E)) then ret tt else
  existing_data <- load_existing_data ;;
  let today_str := strftime_Ymd (now E) in
  found <- lift (rbind (iter existing_data) (any_date today_str)) ;;
  if found then ret tt else
  nikkei_data <- get_nikkei_price ;;
  match nikkei_data with
  | None => ret tt
  | Some q =>
      bond_yield <- get_bond_yield ;;
      metrics <- lift (calculate_metrics (Float (price q))
                         default_eps default_bps default_dividend) ;;
      let new_entry :=
        spread [("date", PyStr today_str);
                ("price", PyNum (Float (price q)));
                ("volume", PyNum (Int (volume q)));
                ("bond_yield", bond_yield)] metrics in
      change <- lift (change_of existing_data (price q)) ;;
      let new_entry := setitem "change" change new_entry in
      existing_data <- lift (insert0 existing_data (PyDict new_entry)) ;;
      existing_data <- lift (slice_to 60 existing_data) ;;
      save_data existing_data
  end.

End Methods.

End NikkeiDataFetcher.


(* ================================================================== *)
(** * Vocabulary of the properties *)

Module Props.
Import Py Collab NikkeiDataFetcher.

(** ** Yield sources *)

(** A source gives no result: whenever called it raises, or returns a
    value the loop's [if yield_rate:] rejects. *)
Definition no_result (s : source) : Prop :=
  forall w, match fst (call s w) with
            | Ok v => truthy v = false
            | Raise _ => True
            end.

(** A source always returns [v]. *)
Definition answers (s : source) (v : object) : Prop :=
  forall w, fst (call s w) = Ok v.

(** A source that returns, returns [None] or a float. *)
Definition decimal_or_null (s : source) : Prop :=
  forall w v, fst (call s w) = Ok v -> v = PyNone \/ exists x, v = PyNum (Float x).

(** The world after the sources [srcs] have been called in order. *)
Definition invoked (srcs : list source) (w : world) : world :=
  fold_left (fun w s => snd (call s (log (Source (name s)) w))) srcs w.

(** A source whose method is [return v]. *)
Definition constant_source (n : string) (v : object) : source :=
  {| name := n; call := ret v |}.

(** A source that raises, or returns [None]: what the specification
    calls no result. *)
Definition null_or_raises (s : source) : Prop :=
  forall w, match fst (call s w) with
            | Ok v => v = PyNone
            | Raise _ => True
            end.

(** The ordering rule as the specification words it: the first source
    that returns a non-null decimal wins. *)
Definition first_non_null_wins : Prop :=
  forall pre s post x w,
    Forall null_or_raises pre ->
    answers s (PyNum (Float x)) ->
    fst (try_sources (pre ++ s :: post) w) = Ok (PyNum (Float x)).

(** ** Runs *)


(** The run neither wrote the document nor changed the file. *)
Definition quiet (E : env) (w : world) : Prop :=
  data_file (snd (run E w)) = data_file w /\
  existsb is_write (events (run E) w) = false.

(** The entry a run builds for today from the quote, the yield, the
    metrics and the change. *)
Definition entry_of (E : env) (q : quote) (bond_yield : object)
           (metrics : dict) (change : object) : dict :=
  setitem "change" change
    (spread [("date", PyStr (strftime_Ymd (now E)));
             ("price", PyNum (Float (price q)));
             ("volume", PyNum (Int (volume q)));
             ("bond_yield", bond_yield)] metrics).

(** What [load_existing_data] makes of the file. *)
Definition document (f : file_state) : object :=
  match f with
  | Document v => v
  | Absent | Unreadable => PyList []
  end.

(** The file after [data] has been handed to [save_data]. *)
Definition saved (E : env) (data : object) (before : file_state) : file_state :=
  match write_result E with
  | Written => Document data
  | OpenFails => before
  | DumpFails => Unreadable
  end.

(** The request to investing.com was answered with status 200. *)
Definition responded_200 (E : env) : bool :=
  match get_response E with
  | Response status_code => status_code =? 200
  | RequestError _ => false
  end.

(** ** Histories *)

(** The date of an entry of the history. *)
Definition entry_date (item : object) : option string :=
  match item with
  | PyDict d =>
      match lookup "date" d with
      | Some (PyStr s) => Some s
      | _ => None
      end
  | _ => None
  end.

Definition dates (items : list object) : list (option string) :=
  map entry_date items.

(** ISO dates are ordered as strings. *)
Definition newer (a b : option string) : Prop :=
  match a, b with
  | Some x, Some y => (y <? x)%string = true
  | _, _ => False
  end.

Definition newest_first (items : list object) : Prop :=
  StronglySorted newer (dates items).

Definition date_eqb (a b : option string) : bool :=
  match a, b with
  | Some x, Some y => (x =? y)%string
  | None, None => true
  | _, _ => false
  end.

Fixpoint nodupb (l : list (option string)) : bool :=
  match l with
  | [] => true
  | a :: l' => negb (existsb (date_eqb a) l') && nodupb l'
  end.

Fixpoint newest_firstb (l : list (option string)) : bool :=
  match l with
  | [] => true
  | a :: l' =>
      forallb (fun b => match a, b with
                        | Some x, Some y => (y <? x)%string
                        | _, _ => false
                        end) l'
      && newest_firstb l'
  end.

(** The retention rule as the specification words it: whenever a
    newest-first history of at most 60 entries with distinct dates is
    loaded, the document a run writes has at most 60 entries, distinct
    dates, and is newest first. *)
Definition retention_keeps_newest_first : Prop :=
  forall (E : env) (w : world) (items persisted : list object),
    fst (load_existing_data w) = Ok (PyList items) ->
    (List.length items <= 60)%nat ->
    NoDup (dates items) ->
    newest_first items ->
    write_result E = Written ->
    existsb is_write (events (run E) w) = true ->
    data_file (snd (run E w)) = Document (PyList persisted) ->
    (List.length persisted <= 60)%nat
    /\ NoDup (dates persisted)
    /\ newest_first persisted.

(** The change rule for an entry without a price, as the specification
    words it: the change written is 0.0. *)
Definition missing_price_gives_zero : Prop :=
  forall (E : env) (w : world) (first : dict) (others : list object)
         (new_entry : dict) (rest : list object),
    fst (load_existing_data w) = Ok (PyList (PyDict first :: others)) ->
    lookup "price" first = None ->
    existsb is_write (events (run E) w) = true ->
    data_file (snd (run E w)) = Document (PyList (PyDict new_entry :: rest)) ->
    lookup "change" new_entry = Some (PyNum (Float (S754_zero false))).

(** ** Sample data *)

Definition wednesday : datetime := {| year := 2026; month := 11; day := 4 |}.
Definition saturday : datetime := {| year := 2026; month := 11; day := 7 |}.
Definition sunday : datetime := {| year := 2026; month := 11; day := 8 |}.
Definition new_year : datetime := {| year := 2026; month := 1; day := 1 |}.

(** A frame of two rows, the last one closing at [close]. *)
Definition sample_frame (close : float) : provider_response :=
  Frame [ {| index := {| year := 2026; month := 11; day := 2 |};
             Close := float_lit 3950025 2;
             Volume := nearest 98765432 |};
          {| index := wednesday;
             Close := close;
             Volume := nearest 123456789 |} ].

Definition sample_env (today : datetime) (close : float) : env :=
  {| makedirs_ok := true;
     now := today;
     history_response := sample_frame close;
     get_response := Response 200;
     write_result := Written |}.

(** The [i]-th entry of a sample history, newest first: twenty days of
    October, September and August 2026. *)
Definition sample_entry (i : nat) : object :=
  let i := Z.of_nat i in
  PyDict [("date", PyStr (strftime_Ymd {| year := 2026;
                                          month := 10 - i / 20;
                                          day := 20 - i mod 20 |}));
          ("price", PyNum (Float (nearest (39500 - 10 * i))))].

Definition sample_history (n : nat) : list object :=
  map sample_entry (seq 0 n).

Definition sample_world (items : list object) : world :=
  {| data_file := Document (PyList items); trace := [] |}.

(** ** Metrics *)

Definition nonzero (a : num) : Prop :=
  match a with
  | Int z => z <> 0
  | Float x => is_zero x = false
  end.

(** The safety rule as the specification words it: division by zero
    needs a zero [price] or a zero [eps]. *)
Definition fails_only_on_zero_price_or_eps : Prop :=
  forall price eps bps dividend : num,
    nonzero price -> nonzero eps ->
    exists m, calculate_metrics price eps bps dividend = Ok m.

(** The smallest positive float, [5e-324]. *)
Definition tiny : float := S754_finite false 1 (-1074).

(** ** Runs in sequence, and what a run checks *)

(** [any(item.get('date') == today_str for item in existing_data)], on
    the document loaded from the file of [w]. *)
Definition already_updated (E : env) (w : world) : result bool :=
  rbind (iter (document (data_file w))) (any_date (strftime_Ymd (now E))).

Definition is_get (ev : event) : bool :=
  match ev with
  | Get _ _ => true
  | _ => false
  end.

(** The file holds a history within the retention bound whose dates are
    pairwise distinct (an absent or unreadable file counts as empty). *)
Definition well_formed (f : file_state) : Prop :=
  exists items,
    document f = PyList items
    /\ (List.length items <= 60)%nat
    /\ NoDup (dates items).

(** Runs one after the other, each with its own answers from the
    collaborators. *)
Definition runs (Es : list env) (w : world) : world :=
  fold_left (fun w E => snd (run E w)) Es w.

End Props.

(* ================================================================== *)
(** * Properties *)

Import Py Collab NikkeiDataFetcher Props.

Ltac mstep := cbv [bind emit attempt ret raise lift]; cbn [fst snd].

Arguments float_lit : simpl never.
Arguments round2 : simpl never.
Arguments nearest : simpl never.
Arguments fdiv : simpl never.
Arguments fsub : simpl never.
Arguments fmul : simpl never.

(** ** The runtime model on known values *)

(** [round(2.675, 2)] is 2.67 and [round(1.005, 2)] is 1.0, since the
    floats are below the decimals written; the ties 0.125 and 0.375 go to
    the even hundredth; the sign of a zero result is kept. *)
Example round2_values :
  round2 (float_lit 2675 3) = float_lit 267 2
  /\ round2 (float_lit 1005 3) = float_lit 1 0
  /\ round2 (float_lit 125 3) = float_lit 12 2
  /\ round2 (float_lit 375 3) = float_lit 38 2
  /\ round2 (SFopp (float_lit 1 3)) = S754_zero true
  /\ round2 (float_lit 4000012345 5) = float_lit 4000012 2.
Proof. repeat split; vm_compute; reflexivity. Qed.

(** [0 / -5] is [-0.0]; [40000 / 27500] is the float nearest to the
    quotient; an int beyond the float range does not convert. *)
Example truediv_values :
  truediv (Int 0) (Int (-5)) = Ok (S754_zero true)
  /\ truediv (Int 40000) (Int 27500)
     = Ok (S754_finite false 6550690367084358 (-52))
  /\ truediv (Float (float_lit 15 1)) (Int (10 ^ 400)) = Raise OverflowError
  /\ truediv (Int 1) (Float (S754_zero true)) = Raise ZeroDivisionError.
Proof. repeat split; vm_compute; reflexivity. Qed.

Example int_of_float_values :
  int_of_float (fdiv (nearest 1234567890) (nearest 1000000)) = Ok 1234
  /\ int_of_float (SFopp (float_lit 19 1)) = Ok (-1)
  /\ int_of_float S754_nan = Raise ValueError.
Proof. repeat split; vm_compute; reflexivity. Qed.

(** 4 November 2026 is a Wednesday, 29 February 2024 a Thursday. *)
Example datetime_values :
  weekday wednesday = 2
  /\ weekday {| year := 2024; month := 2; day := 29 |} = 3
  /\ toordinal {| year := 2000; month := 1; day := 1 |} = 730120
  /\ strftime_Ymd {| year := 2026; month := 3; day := 9 |} = "2026-03-09".
Proof. repeat split; vm_compute; reflexivity. Qed.

(** ** Arithmetic *)

Lemma float_of_int_error (z : Z) (e : exn) :
  float_of_int z = Raise e -> e = OverflowError.
Proof.
  unfold float_of_int. destruct (nearest z); intro H; inversion H; reflexivity.
Qed.

Lemma truediv_error (a b : num) (e : exn) :
  truediv a b = Raise e -> e = ZeroDivisionError \/ e = OverflowError.
Proof.
  unfold truediv.
  destruct a as [x | x], b as [y | y].
  - destruct (y =? 0); [intro H; inversion H; left; reflexivity |].
    destruct (fdiv _ _); intro H; inversion H; right; reflexivity.
  - cbn [to_float rbind].
    destruct (float_of_int x) as [x' |] eqn:Hx; cbn [rbind].
    + destruct (is_zero y); intro H; inversion H; left; reflexivity.
    + intro H; inversion H; subst. right. exact (float_of_int_error _ _ Hx).
  - cbn [to_float rbind].
    destruct (float_of_int y) as [y' |] eqn:Hy; cbn [rbind].
    + destruct (is_zero y'); intro H; inversion H; left; reflexivity.
    + intro H; inversion H; subst. right. exact (float_of_int_error _ _ Hy).
  - cbn [to_float rbind].
    destruct (is_zero y); intro H; inversion H; left; reflexivity.
Qed.

Lemma truediv_float (x : float) (b : num) (y : float) :
  to_float b = Ok y ->
  truediv (Float x) b = if is_zero y then Raise ZeroDivisionError else Ok (fdiv x y).
Proof.
  intro H. unfold truediv. destruct b as [z | y']; cbn [to_float rbind] in *.
  - rewrite H. reflexivity.
  - inversion H; subst. reflexivity.
Qed.

Lemma truediv_by_float (a : num) (x y : float) :
  to_float a = Ok x ->
  truediv a (Float y) = if is_zero y then Raise ZeroDivisionError else Ok (fdiv x y).
Proof.
  intro H. unfold truediv. destruct a as [z | x']; cbn [to_float rbind] in *.
  - rewrite H. reflexivity.
  - inversion H; subst. reflexivity.
Qed.

Lemma float_of_int_100 : float_of_int 100 = Ok (nearest 100).
Proof. vm_compute. reflexivity. Qed.

Lemma mul_100 (x : float) : mul x (Int 100) = Ok (fmul x (nearest 100)).
Proof. unfold mul. cbn [to_float]. rewrite float_of_int_100. reflexivity. Qed.

Lemma fsub_diag (x : float) : is_finite x = true -> fsub x x = S754_zero false.
Proof.
  destruct x as [s | s | | s m e]; cbn [is_finite]; try discriminate; intros _.
  - destruct s; reflexivity.
  - unfold fsub, SFsub. rewrite Z.min_id. unfold shl_align.
    rewrite !Z.sub_diag. reflexivity.
Qed.

Lemma round_half_even_near (a b : Z) :
  0 < b -> 2 * Z.abs (a - round_half_even a b * b) <= b.
Proof.
  intro Hb. unfold round_half_even.
  pose proof (Z.div_mod a b ltac:(lia)) as Hdm.
  pose proof (Z.mod_pos_bound a b Hb) as Hm.
  destruct (Z.compare_spec (2 * (a mod b)) b) as [Heq | Hlt | Hgt];
    [destruct (Z.even (a / b)) |..]; nia.
Qed.

(** [hundredths] is within half a hundredth of the exact value. *)
Lemma hundredths_near (m : positive) (e : Z) :
  if 0 <=? e
  then hundredths m e = 100 * (Zpos m * 2 ^ e)
  else 2 * Z.abs (100 * Zpos m - hundredths m e * 2 ^ (- e)) <= 2 ^ (- e).
Proof.
  unfold hundredths. destruct (0 <=? e) eqn:He; [lia |].
  apply Z.leb_gt in He.
  replace (100 * Zpos m) with (Zpos m * 100) by lia.
  apply round_half_even_near. apply Z.pow_pos_nonneg; lia.
Qed.

(** ** [calculate_metrics] *)

Lemma calculate_metrics_keys (price eps bps dividend : num) (m : dict) :
  calculate_metrics price eps bps dividend = Ok m ->
  exists per pbr yield_rate dividend_yield,
    m = [("per", per); ("pbr", pbr); ("eps", PyNum eps); ("bps", PyNum bps);
         ("yield_rate", yield_rate); ("dividend_yield", dividend_yield)].
Proof.
  unfold calculate_metrics.
  destruct (truediv price eps); cbn [rbind]; [| discriminate].
  destruct (truediv price bps); cbn [rbind]; [| discriminate].
  destruct (truediv (Int 100) (Float a)); cbn [rbind]; [| discriminate].
  destruct (truediv dividend price); cbn [rbind]; [| discriminate].
  destruct (mul a2 (Int 100)); cbn [rbind]; [| discriminate].
  intro H. inversion H. do 4 eexists. reflexivity.
Qed.

Lemma calculate_metrics_error (price eps bps dividend : num) (e : exn) :
  calculate_metrics price eps bps dividend = Raise e ->
  e = ZeroDivisionError \/ e = OverflowError.
Proof.
  unfold calculate_metrics.
  destruct (truediv price eps) eqn:H1; cbn [rbind];
    [| intro H; inversion H; subst; exact (truediv_error _ _ _ H1)].
  destruct (truediv price bps) eqn:H2; cbn [rbind];
    [| intro H; inversion H; subst; exact (truediv_error _ _ _ H2)].
  destruct (truediv (Int 100) (Float a)) eqn:H3; cbn [rbind];
    [| intro H; inversion H; subst; exact (truediv_error _ _ _ H3)].
  destruct (truediv dividend price) eqn:H4; cbn [rbind];
    [| intro H; inversion H; subst; exact (truediv_error _ _ _ H4)].
  rewrite mul_100. cbn [rbind]. discriminate.
Qed.

(** C4 — Metrics computation.  Whenever the quotients exist,
    [calculate_metrics] returns [per = price / eps], [pbr = price / bps],
    [yield_rate = 100 / (price / eps)] and
    [dividend_yield = (dividend / price) * 100], each rounded to two
    decimal places, with [eps] and [bps] passed through unchanged; for
    price 40000, eps 2500, bps 27500 and dividend 900 it returns
    per 16.0, pbr 1.45, yield rate 6.25 and dividend yield 2.25. *)
Theorem calculate_metrics_formulas :
  (forall (price eps bps dividend : num) (q q' d : float),
      truediv price eps = Ok q ->
      truediv price bps = Ok q' ->
      is_zero q = false ->
      truediv dividend price = Ok d ->
      calculate_metrics price eps bps dividend
      = Ok [("per", PyNum (Float (round2 q)));
            ("pbr", PyNum (Float (round2 q')));
            ("eps", PyNum eps);
            ("bps", PyNum bps);
            ("yield_rate", PyNum (Float (round2 (fdiv (nearest 100) q))));
            ("dividend_yield", PyNum (Float (round2 (fmul d (nearest 100)))))])
  /\ calculate_metrics (Int 40000) (Int 2500) (Int 27500) (Int 900)
     = Ok [("per", PyNum (Float (float_lit 160 1)));
           ("pbr", PyNum (Float (float_lit 145 2)));
           ("eps", PyNum (Int 2500));
           ("bps", PyNum (Int 27500));
           ("yield_rate", PyNum (Float (float_lit 625 2)));
           ("dividend_yield", PyNum (Float (float_lit 225 2)))]
  /\ calculate_metrics (Float (nearest 40000)) (Int 2500) (Int 27500) (Int 900)
     = Ok [("per", PyNum (Float (float_lit 160 1)));
           ("pbr", PyNum (Float (float_lit 145 2)));
           ("eps", PyNum (Int 2500));
           ("bps", PyNum (Int 27500));
           ("yield_rate", PyNum (Float (float_lit 625 2)));
           ("dividend_yield", PyNum (Float (float_lit 225 2)))].
Proof.
  split; [| split; vm_compute; reflexivity].
  intros price eps bps dividend q q' d H1 H2 Hq H4.
  unfold calculate_metrics. rewrite H1, H2. cbn [rbind].
  rewrite (truediv_by_float (Int 100) (nearest 100) q float_of_int_100).
  rewrite Hq, H4. cbn [rbind]. rewrite mul_100. reflexivity.
Qed.

Lemma calculate_metrics_formulas_witness :
  calculate_metrics (Float (float_lit 3985012 2)) (Int 2500) (Int 27500) (Int 900)
  = Ok [("per", PyNum (Float (float_lit 1594 2)));
        ("pbr", PyNum (Float (float_lit 145 2)));
        ("eps", PyNum (Int 2500));
        ("bps", PyNum (Int 27500));
        ("yield_rate", PyNum (Float (float_lit 627 2)));
        ("dividend_yield", PyNum (Float (float_lit 226 2)))].
Proof.
  rewrite (proj1 calculate_metrics_formulas
             (Float (float_lit 3985012 2)) (Int 2500) (Int 27500) (Int 900)
             (fdiv (float_lit 3985012 2) (nearest 2500))
             (fdiv (float_lit 3985012 2) (nearest 27500))
             (fdiv (nearest 900) (float_lit 3985012 2))).
  - vm_compute. reflexivity.
  - vm_compute. reflexivity.
  - vm_compute. reflexivity.
  - vm_compute. reflexivity.
  - vm_compute. reflexivity.
Defined.

(** An underflowing quotient: the price [5e-324] divided by 2500 is 0.0,
    and [100 / 0.0] raises. *)
Example calculate_metrics_underflow :
  calculate_metrics (Float tiny) default_eps default_bps default_dividend
  = Raise ZeroDivisionError.
Proof. vm_compute. reflexivity. Qed.

(** C5, as stated, fails: with a non-zero price and a non-zero eps,
    a zero bps makes [price / bps] raise [ZeroDivisionError]. *)
Lemma zero_bps_raises : ~ fails_only_on_zero_price_or_eps.
Proof.
  intro H.
  destruct (H (Int 40000) (Int 2500) (Int 0) (Int 900)) as [m Hm].
  - cbn [nonzero]. discriminate.
  - cbn [nonzero]. discriminate.
  - vm_compute in Hm. discriminate.
Qed.

(** C5, amended — Metrics safety.  [calculate_metrics] is a function of
    its arguments alone and fails only with [ZeroDivisionError] or, for an
    int too large for a float, [OverflowError]; with a float price and
    eps, bps and dividend that convert to floats, it succeeds exactly when
    price, eps, bps and the float quotient price / eps are all non-zero. *)
Theorem calculate_metrics_failure_modes :
  (forall (price eps bps dividend : num) (e : exn),
      calculate_metrics price eps bps dividend = Raise e ->
      e = ZeroDivisionError \/ e = OverflowError)
  /\ (forall (p : float) (eps bps dividend : num) (e b d : float),
         to_float eps = Ok e -> to_float bps = Ok b -> to_float dividend = Ok d ->
         ((exists m, calculate_metrics (Float p) eps bps dividend = Ok m)
          <-> is_zero p = false /\ is_zero e = false /\ is_zero b = false
              /\ is_zero (fdiv p e) = false)).
Proof.
  split; [exact calculate_metrics_error |].
  intros p eps bps dividend e b d He Hb Hd.
  unfold calculate_metrics.
  rewrite (truediv_float p eps e He), (truediv_float p bps b Hb).
  destruct (is_zero e); cbn [rbind];
    [split; [intros [m H]; discriminate | intros (_ & H & _); discriminate] |].
  destruct (is_zero b); cbn [rbind];
    [split; [intros [m H]; discriminate | intros (_ & _ & H & _); discriminate] |].
  rewrite (truediv_by_float (Int 100) (nearest 100) _ float_of_int_100).
  destruct (is_zero (fdiv p e)); cbn [rbind];
    [split; [intros [m H]; discriminate | intros (_ & _ & _ & H); discriminate] |].
  rewrite (truediv_by_float dividend d p Hd).
  destruct (is_zero p); cbn [rbind];
    [split; [intros [m H]; discriminate | intros (H & _); discriminate] |].
  rewrite mul_100. cbn [rbind].
  split; [intros _; repeat split | intros _; eexists; reflexivity].
Qed.

Lemma calculate_metrics_failure_modes_witness :
  exists m, calculate_metrics (Float (nearest 40000)) (Int 2500) (Int 27500)
              (Int 900) = Ok m.
Proof.
  apply (proj2 calculate_metrics_failure_modes (nearest 40000)
           (Int 2500) (Int 27500) (Int 900)
           (nearest 2500) (nearest 27500) (nearest 900)).
  - vm_compute. reflexivity.
  - vm_compute. reflexivity.
  - vm_compute. reflexivity.
  - repeat split; vm_compute; reflexivity.
Defined.

(** ** The yield loop *)

Lemma try_sources_cons (s : source) (rest : list source) (w : world) :
  try_sources (s :: rest) w =
  match call s (log (Source (name s)) w) with
  | (Ok v, w') => if truthy v then (Ok v, w') else try_sources rest w'
  | (Raise _, w') => try_sources rest w'
  end.
Proof.
  cbn [try_sources]. mstep.
  destruct (call s (log (Source (name s)) w)) as [[v | e] w'];
    [destruct (truthy v) |]; reflexivity.
Qed.

Lemma try_sources_total (srcs : list source) :
  forall w, exists v, fst (try_sources srcs w) = Ok v.
Proof.
  induction srcs as [| s rest IH]; intro w.
  - eexists. reflexivity.
  - rewrite try_sources_cons.
    destruct (call s (log (Source (name s)) w)) as [[v | e] w'].
    + destruct (truthy v); [exists v; reflexivity | apply IH].
    + apply IH.
Qed.

Lemma try_sources_skip (s : source) (rest : list source) (w : world) :
  no_result s ->
  try_sources (s :: rest) w = try_sources rest (invoked [s] w).
Proof.
  intro Hs. rewrite try_sources_cons. cbn [invoked fold_left].
  specialize (Hs (log (Source (name s)) w)).
  destruct (call s (log (Source (name s)) w)) as [[v | e] w']; cbn [fst snd] in *.
  - rewrite Hs. reflexivity.
  - reflexivity.
Qed.

Lemma try_sources_exhausted (srcs : list source) :
  forall w, Forall no_result srcs ->
    try_sources srcs w = (Ok (PyNum (Float (float_lit 15 1))), invoked srcs w).
Proof.
  induction srcs as [| s rest IH]; intros w H.
  - reflexivity.
  - inversion H as [| ? ? Hs Hrest]; subst.
    rewrite try_sources_skip by assumption.
    rewrite IH by assumption.
    reflexivity.
Qed.

Lemma try_sources_first (pre : list source) (s : source) (post : list source)
      (v : object) :
  forall w, Forall no_result pre -> answers s v -> truthy v = true ->
    try_sources (pre ++ s :: post) w = (Ok v, invoked (pre ++ [s]) w).
Proof.
  induction pre as [| p pre IH]; intros w Hpre Hs Hv.
  - cbn [app]. rewrite try_sources_cons. cbn [invoked fold_left].
    specialize (Hs (log (Source (name s)) w)).
    destruct (call s (log (Source (name s)) w)) as [r w']; cbn [fst snd] in *.
    subst r. rewrite Hv. reflexivity.
  - inversion Hpre as [| ? ? Hp Hrest]; subst.
    cbn [app]. rewrite try_sources_skip by assumption.
    rewrite IH by assumption.
    reflexivity.
Qed.

Lemma try_sources_number (srcs : list source) :
  forall w, Forall decimal_or_null srcs ->
    exists x, fst (try_sources srcs w) = Ok (PyNum (Float x)).
Proof.
  induction srcs as [| s rest IH]; intros w H.
  - eexists. reflexivity.
  - inversion H as [| ? ? Hs Hrest]; subst.
    rewrite try_sources_cons.
    specialize (Hs (log (Source (name s)) w)).
    destruct (call s (log (Source (name s)) w)) as [[v | e] w']; cbn [fst] in Hs.
    + destruct (Hs v eq_refl) as [-> | [x ->]].
      * cbn [truthy]. apply IH; assumption.
      * destruct (truthy (PyNum (Float x))).
        -- exists x. reflexivity.
        -- apply IH; assumption.
    + apply IH; assumption.
Qed.

(** ** The three sources of [get_bond_yield] *)

Lemma truthy_1485 : truthy (PyNum (Float (float_lit 1485 3))) = true.
Proof. vm_compute. reflexivity. Qed.

Lemma investing_eq (E : env) (w : world) :
  _get_yield_from_investing E w =
  (Ok (if responded_200 E then PyNum (Float (float_lit 1485 3)) else PyNone),
   log (Get "https://www.investing.com/rates-bonds/japan-10-year-bond-yield" 10) w).
Proof.
  unfold _get_yield_from_investing, responded_200. mstep.
  destruct (get_response E) as [e | sc]; [reflexivity |].
  destruct (sc =? 200); reflexivity.
Qed.

Lemma get_bond_yield_eq (E : env) (w : world) :
  get_bond_yield E w =
  (Ok (PyNum (Float (float_lit 1485 3))),
   invoked (if responded_200 E then firstn 1 (sources E) else sources E) w).
Proof.
  unfold get_bond_yield, sources.
  rewrite try_sources_cons. cbn [call name firstn].
  rewrite investing_eq.
  destruct (responded_200 E).
  - cbv beta iota. rewrite truthy_1485. cbn [invoked fold_left call name].
    rewrite investing_eq. reflexivity.
  - cbv beta iota. cbn [truthy].
    rewrite try_sources_cons. cbn [call name].
    unfold _get_yield_from_tradingview. mstep. cbn [truthy].
    rewrite try_sources_cons. cbn [call name].
    unfold _get_yield_fallback. mstep. rewrite truthy_1485.
    cbn [invoked fold_left call name].
    rewrite investing_eq. reflexivity.
Qed.

(** ** [get_bond_yield] *)

(** C9 — With the three sources of the code, [get_bond_yield] returns
    1.485 whatever the network request does (any status code, or an
    exception): the first source returns 1.485 or [None] and never raises,
    the second returns [None], the third returns 1.485, and the final
    value 1.5 is never returned. *)
Theorem get_bond_yield_is_1485 (E : env) (w : world) :
  fst (get_bond_yield E w) = Ok (PyNum (Float (float_lit 1485 3)))
  /\ (fst (_get_yield_from_investing E w) = Ok (PyNum (Float (float_lit 1485 3)))
      \/ fst (_get_yield_from_investing E w) = Ok PyNone)
  /\ fst (_get_yield_from_tradingview w) = Ok PyNone
  /\ fst (_get_yield_fallback w) = Ok (PyNum (Float (float_lit 1485 3)))
  /\ fst (get_bond_yield E w) <> Ok (PyNum (Float (float_lit 15 1))).
Proof.
  rewrite get_bond_yield_eq, investing_eq. cbn [fst].
  repeat split.
  - destruct (responded_200 E); [left | right]; reflexivity.
  - intro H. vm_compute in H. discriminate.
Qed.

(** C3, as stated, fails: a source that returns the non-null decimal 0.0
    does not win; the loop goes on and the next source's value is
    returned. *)
Lemma zero_yield_is_skipped : ~ first_non_null_wins.
Proof.
  intro H.
  specialize (H [] (constant_source "zero" (PyNum (Float (S754_zero false))))
                [constant_source "next" (PyNum (Float (float_lit 1485 3)))]
                (S754_zero false)
                {| data_file := Absent; trace := [] |}
                (Forall_nil _) (fun _ => eq_refl)).
  vm_compute in H. discriminate.
Qed.

(** C3, amended — Yield fetch with ordered fallback.  The loop never
    raises, and [get_bond_yield] always returns a number (so does the loop
    over any sources that return [None] or a float).  The sources are
    called in order; the first one that returns a true value, that is a
    non-null and non-zero one, wins and the sources after it are not
    called; a source that raises, returns [None] or returns zero counts as
    no result; when no source has a result the constant 1.5 is
    returned. *)
Theorem yield_fetch_ordered_fallback (E : env) (srcs : list source) (w : world) :
  (exists v, fst (try_sources srcs w) = Ok v)
  /\ (exists x, fst (get_bond_yield E w) = Ok (PyNum (Float x)))
  /\ (Forall decimal_or_null srcs ->
      exists x, fst (try_sources srcs w) = Ok (PyNum (Float x)))
  /\ (forall pre s post v,
         srcs = pre ++ s :: post ->
         Forall no_result pre -> answers s v -> truthy v = true ->
         try_sources srcs w = (Ok v, invoked (pre ++ [s]) w))
  /\ (Forall no_result srcs ->
      try_sources srcs w = (Ok (PyNum (Float (float_lit 15 1))), invoked srcs w))
  /\ (forall s, (forall w', exists e, fst (call s w') = Raise e) -> no_result s)
  /\ (forall s, answers s PyNone -> no_result s)
  /\ (forall s sign, answers s (PyNum (Float (S754_zero sign))) -> no_result s).
Proof.
  split; [apply try_sources_total |].
  split; [eexists; rewrite get_bond_yield_eq; reflexivity |].
  split; [apply try_sources_number |].
  split; [intros pre s post v ->; apply try_sources_first |].
  split; [apply try_sources_exhausted |].
  split; [| split].
  - intros s H w'. destruct (H w') as [e ->]. exact I.
  - intros s H w'. rewrite H. reflexivity.
  - intros s sign H w'. rewrite H. reflexivity.
Qed.

Lemma yield_fetch_ordered_fallback_witness :
  try_sources
    [ {| name := "raises"; call := raise (Exception "timeout") |};
      constant_source "null" PyNone;
      constant_source "zero" (PyNum (Float (S754_zero false)));
      constant_source "first" (PyNum (Float (float_lit 1485 3)));
      constant_source "second" (PyNum (Float (float_lit 15 1))) ]
    {| data_file := Absent; trace := [] |}
  = (Ok (PyNum (Float (float_lit 1485 3))),
     {| data_file := Absent;
        trace := [Source "raises"; Source "null"; Source "zero"; Source "first"] |}).
Proof.
  apply (proj1 (proj2 (proj2 (proj2
           (yield_fetch_ordered_fallback
              {| makedirs_ok := true;
                 now := {| year := 2026; month := 11; day := 4 |};
                 history_response := Frame [];
                 get_response := Response 200;
                 write_result := Written |}
              _ {| data_file := Absent; trace := [] |}))))
           [ {| name := "raises"; call := raise (Exception "timeout") |};
             constant_source "null" PyNone;
             constant_source "zero" (PyNum (Float (S754_zero false))) ]
           (constant_source "first" (PyNum (Float (float_lit 1485 3))))
           [ constant_source "second" (PyNum (Float (float_lit 15 1))) ]).
  - reflexivity.
  - repeat constructor; intro w'; vm_compute; reflexivity.
  - intro w'. reflexivity.
  - vm_compute. reflexivity.
Defined.

(** ** Traces *)

Lemma skipn_app_length {A} (l l' : list A) :
  skipn (List.length l) (l ++ l') = l'.
Proof. induction l as [| a l IH]; [reflexivity | exact IH]. Qed.

Lemma events_eq {A} (c : M A) (w : world) (evs : list event) :
  trace (snd (c w)) = trace w ++ evs -> events c w = evs.
Proof. intro H. unfold events. rewrite H. apply skipn_app_length. Qed.

Ltac norm_trace :=
  cbn [trace data_file log store snd fst];
  rewrite <- ?app_assoc; cbn [app].

(** ** The methods of the class, one by one *)

Lemma get_nikkei_price_result (E : env) :
  exists o, forall w,
    get_nikkei_price E w = (Ok o, log (History ticker "5d") w).
Proof.
  unfold get_nikkei_price. mstep.
  destruct (history_response E) as [e | rows].
  - exists None. reflexivity.
  - destruct (rev rows) as [| latest init].
    + exists None. reflexivity.
    + destruct (int_of_float (fdiv (Volume latest) (nearest 1000000))) as [v | e].
      * eexists. reflexivity.
      * exists None. reflexivity.
Qed.

Lemma load_result (w : world) :
  exists evs,
    load_existing_data w
    = (Ok (document (data_file w)),
       {| data_file := data_file w; trace := trace w ++ evs |})
    /\ existsb is_write evs = false
    /\ existsb is_network evs = false.
Proof.
  unfold load_existing_data, log. destruct w as [f t]. cbn [data_file trace].
  destruct f; cbn [document].
  - exists []. rewrite app_nil_r. repeat split.
  - eexists. repeat split.
  - eexists. repeat split.
Qed.

Lemma invoked_sources (E : env) (w : world) :
  exists evs,
    invoked (if responded_200 E then firstn 1 (sources E) else sources E) w
    = {| data_file := data_file w; trace := trace w ++ evs |}
    /\ existsb is_write evs = false
    /\ existsb is_network evs = true.
Proof.
  destruct (responded_200 E);
    cbn [invoked firstn sources fold_left call name];
    rewrite investing_eq;
    unfold _get_yield_from_tradingview, _get_yield_fallback; mstep;
    unfold log; norm_trace; eexists; split; try reflexivity; split; reflexivity.
Qed.

Lemma existsb_app_false {A} (f : A -> bool) (l1 l2 : list A) :
  existsb f l1 = false -> existsb f l2 = false -> existsb f (l1 ++ l2) = false.
Proof. intros H1 H2. rewrite existsb_app, H1, H2. reflexivity. Qed.

Ltac quiet_branch :=
  left; split;
  [ reflexivity
  | eexists; split;
    [ norm_trace; reflexivity
    | repeat (first [ assumption | reflexivity
                    | apply existsb_app_false
                    | match goal with
                      | |- existsb _ (_ :: _) = false =>
                          cbn [existsb is_write orb]
                      end ]) ] ].

Lemma run_cases_trace (E : env) (w : world) :
  (data_file (snd (run E w)) = data_file w /\
   exists evs, trace (snd (run E w)) = trace w ++ evs /\
               existsb is_write evs = false) \/
  exists items q metrics change evs,
    makedirs_ok E = true /\
    is_business_day (now E) = true /\
    fst (load_existing_data w) = Ok (PyList items) /\
    any_date (strftime_Ymd (now E)) items = Ok false /\
    fst (get_nikkei_price E w) = Ok (Some q) /\
    calculate_metrics (Float (price q)) default_eps default_bps default_dividend
      = Ok metrics /\
    change_of (PyList items) (price q) = Ok change /\
    let data :=
      PyList (firstn 60 (PyDict (entry_of E q (PyNum (Float (float_lit 1485 3)))
                                          metrics change) :: items)) in
    fst (run E w) = Ok tt /\
    trace (snd (run E w)) = trace w ++ evs ++ [WriteFile data_file_path data] /\
    existsb is_write evs = false /\
    data_file (snd (run E w)) = saved E data (data_file w).
Proof.
  destruct (get_nikkei_price_result E) as [o Hq].
  remember (run E w) as r eqn:Hr.
  unfold run, ensure_data_directory in Hr.
  cbv [bind emit attempt ret raise lift] in Hr.
  destruct (makedirs_ok E) eqn:Hmk; [| subst r; quiet_branch].
  destruct (is_business_day (now E)) eqn:Hbd; cbn [negb] in Hr;
    [| subst r; quiet_branch].
  destruct (load_result (log (Makedirs "data") w)) as (revs & Hl & Hlw & _).
  rewrite Hl in Hr. cbn [data_file trace log] in Hr.
  destruct (rbind (iter (document (data_file w)))
                  (any_date (strftime_Ymd (now E)))) as [[|] | e] eqn:Hany;
    [subst r; quiet_branch | | subst r; quiet_branch].
  rewrite Hq in Hr.
  destruct o as [q |]; [| subst r; quiet_branch].
  rewrite get_bond_yield_eq in Hr.
  edestruct (invoked_sources E) as (yevs & Hy & Hyw & _).
  rewrite Hy in Hr. clear Hy. cbn [data_file trace log] in Hr.
  destruct (calculate_metrics (Float (price q)) default_eps default_bps
              default_dividend) as [metrics | e] eqn:Hcm;
    [| subst r; quiet_branch].
  destruct (change_of (document (data_file w)) (price q)) as [change | e] eqn:Hch;
    [| subst r; quiet_branch].
  destruct (document (data_file w)) as [| b | n | s | items | d] eqn:Hdoc;
    cbn [insert0] in Hr; try (subst r; quiet_branch).
  cbn [slice_to] in Hr. unfold save_data in Hr.
  right. exists items, q, metrics, change.
  exists (Makedirs "data" :: revs ++ History ticker "5d" :: yevs).
  cbv zeta.
  repeat match goal with |- _ /\ _ => split end;
    try assumption; try reflexivity.
  - destruct (load_result w) as (evs & Hlw' & _). rewrite Hlw'.
    cbn [fst]. rewrite Hdoc. reflexivity.
  - rewrite Hq. reflexivity.
  - subst r. destruct (write_result E); reflexivity.
  - subst r. unfold entry_of.
    destruct (write_result E); norm_trace;
      repeat (progress (rewrite <- ?app_assoc; cbn [app])); reflexivity.
  - cbn [existsb is_write orb]. apply existsb_app_false; [assumption |].
    cbn [existsb is_write orb]. assumption.
  - subst r. unfold saved, entry_of. destruct (write_result E); reflexivity.
Qed.

(** Every run is quiet, or it handed to [save_data] today's entry put in
    front of the loaded history, cut to sixty entries. *)
Lemma run_cases (E : env) (w : world) :
  quiet E w \/
  exists items q metrics change evs,
    makedirs_ok E = true /\
    is_business_day (now E) = true /\
    fst (load_existing_data w) = Ok (PyList items) /\
    any_date (strftime_Ymd (now E)) items = Ok false /\
    fst (get_nikkei_price E w) = Ok (Some q) /\
    calculate_metrics (Float (price q)) default_eps default_bps default_dividend
      = Ok metrics /\
    change_of (PyList items) (price q) = Ok change /\
    let data :=
      PyList (firstn 60 (PyDict (entry_of E q (PyNum (Float (float_lit 1485 3)))
                                          metrics change) :: items)) in
    fst (run E w) = Ok tt /\
    events (run E) w = evs ++ [WriteFile data_file_path data] /\
    existsb is_write evs = false /\
    data_file (snd (run E w)) = saved E data (data_file w).
Proof.
  destruct (run_cases_trace E w)
    as [[Hf (evs & Ht & Hw)]
       | (items & q & metrics & change & evs & H1 & H2 & H3 & H4 & H5 & H6 & H7 & H8)].
  - left. split; [exact Hf |]. rewrite (events_eq _ _ _ Ht). exact Hw.
  - right. exists items, q, metrics, change, evs.
    cbv zeta in H8. destruct H8 as (H8 & H9 & H10 & H11).
    cbv zeta. repeat split; try assumption.
    apply events_eq. exact H9.
Qed.

Lemma quiet_not_written (E : env) (w : world) :
  quiet E w -> existsb is_write (events (run E) w) = true -> False.
Proof. intros [_ H] H'. rewrite H in H'. discriminate. Qed.

(** ** What a computation does depends on the file only *)














(** ** Histories *)


Lemma any_date_none (today_str : string) (items : list object) :
  any_date today_str items = Ok false ->
  forall item, In item items ->
    exists v, get item "date" PyNone = Ok v /\ eq_str v today_str = false.
Proof.
  induction items as [| item rest IH]; cbn [any_date]; intros H x Hin.
  - destruct Hin.
  - destruct (get item "date" PyNone) as [v | e] eqn:Hg; cbn [rbind] in H;
      [| discriminate].
    destruct (eq_str v today_str) eqn:Heq; [discriminate |].
    destruct Hin as [<- | Hin].
    + exists v. split; assumption.
    + exact (IH H x Hin).
Qed.

Lemma any_date_dates (today_str : string) (items : list object) :
  any_date today_str items = Ok false -> ~ In (Some today_str) (dates items).
Proof.
  intros H Hin. unfold dates in Hin. apply in_map_iff in Hin.
  destruct Hin as (item & Hd & Hin).
  destruct (any_date_none _ _ H item Hin) as (v & Hg & Heq).
  destruct item as [| b | n | s | l | d]; try discriminate Hd.
  cbn [entry_date] in Hd. cbn [get] in Hg.
  destruct (lookup "date" d) as [[| b | n | s | l | d'] |]; try discriminate Hd.
  inversion Hd; subst. inversion Hg; subst.
  cbn [eq_str] in Heq. rewrite String.eqb_refl in Heq. discriminate.
Qed.

Lemma entry_of_shape (E : env) (q : quote) (bond_yield change : object)
      (price eps bps dividend : num) (metrics : dict) :
  calculate_metrics price eps bps dividend = Ok metrics ->
  exists per pbr yield_rate dividend_yield,
    entry_of E q bond_yield metrics change
    = [("date", PyStr (strftime_Ymd (now E)));
       ("price", PyNum (Float (NikkeiDataFetcher.price q)));
       ("volume", PyNum (Int (volume q)));
       ("bond_yield", bond_yield);
       ("per", per); ("pbr", pbr); ("eps", PyNum eps); ("bps", PyNum bps);
       ("yield_rate", yield_rate); ("dividend_yield", dividend_yield);
       ("change", change)].
Proof.
  intro H. destruct (calculate_metrics_keys _ _ _ _ _ H) as (a & b & c & d & ->).
  exists a, b, c, d. reflexivity.
Qed.

Lemma In_firstn {A} (a : A) (l : list A) :
  forall n, In a (firstn n l) -> In a l.
Proof.
  induction l as [| b l IH]; intros [| n] Hin; cbn [firstn In] in *;
    try contradiction.
  destruct Hin as [-> | Hin]; [left; reflexivity | right; exact (IH n Hin)].
Qed.

Lemma NoDup_firstn {A} (n : nat) (l : list A) : NoDup l -> NoDup (firstn n l).
Proof.
  intro H. revert n. induction H as [| a l Hnin Hnd IH]; intro n.
  - rewrite firstn_nil. constructor.
  - destruct n as [| n]; [constructor |]. cbn [firstn]. constructor.
    + intro Hin. apply Hnin. exact (In_firstn _ _ _ Hin).
    + apply IH.
Qed.

Lemma Forall_firstn {A} (P : A -> Prop) (n : nat) (l : list A) :
  Forall P l -> Forall P (firstn n l).
Proof.
  intro H. revert n. induction H as [| a l Ha Hl IH]; intro n.
  - rewrite firstn_nil. constructor.
  - destruct n; [constructor |]. cbn [firstn]. constructor; [exact Ha | apply IH].
Qed.

Lemma StronglySorted_firstn {A} (R : A -> A -> Prop) (n : nat) (l : list A) :
  StronglySorted R l -> StronglySorted R (firstn n l).
Proof.
  intro H. revert n. induction H as [| a l Hl IH Ha]; intro n.
  - rewrite firstn_nil. constructor.
  - destruct n; [constructor |]. cbn [firstn].
    constructor; [apply IH | apply Forall_firstn; exact Ha].
Qed.

Lemma date_eqb_eq (a b : option string) : date_eqb a b = true <-> a = b.
Proof.
  destruct a as [x |], b as [y |]; cbn [date_eqb];
    try (split; [discriminate | discriminate]); [| split; reflexivity].
  rewrite String.eqb_eq. split; [intros -> | intro H; inversion H]; reflexivity.
Qed.

Lemma nodupb_sound (l : list (option string)) : nodupb l = true -> NoDup l.
Proof.
  induction l as [| a l IH]; cbn [nodupb]; intro H; [constructor |].
  apply andb_true_iff in H. destruct H as [Ha Hl].
  constructor; [| exact (IH Hl)].
  intro Hin. apply negb_true_iff in Ha.
  assert (existsb (date_eqb a) l = true) as Hex.
  { apply existsb_exists. exists a. split; [exact Hin | apply date_eqb_eq; reflexivity]. }
  rewrite Hex in Ha. discriminate.
Qed.

Lemma newest_firstb_sound (l : list (option string)) :
  newest_firstb l = true -> StronglySorted newer l.
Proof.
  induction l as [| a l IH]; cbn [newest_firstb]; intro H; [constructor |].
  apply andb_true_iff in H. destruct H as [Ha Hl].
  constructor; [exact (IH Hl) |].
  apply Forall_forall. intros b Hb.
  rewrite forallb_forall in Ha. specialize (Ha b Hb).
  destruct a, b; cbn [newer]; try discriminate; exact Ha.
Qed.

(** ** The run *)

Lemma weekday_range (d : datetime) : 0 <= weekday d < 7.
Proof. unfold weekday. apply Z.mod_pos_bound. lia. Qed.

Lemma run_not_business_day (E : env) (w : world) :
  is_business_day (now E) = false ->
  run E w = (if makedirs_ok E then Ok tt else Raise OSError,
             log (Makedirs "data") w).
Proof.
  intro H. unfold run, ensure_data_directory. mstep. rewrite H.
  destruct (makedirs_ok E); reflexivity.
Qed.

(** C8 — Non-business-day short-circuit.  A business day is a day whose
    weekday index is below 5 (Monday to Friday); nothing else is looked
    at, so a public holiday on a weekday counts as a business day.  On a
    Saturday or a Sunday the run stops after creating the directory: the
    file is left as it was, and no network call, no yield source and no
    write of the document takes place. *)
Theorem weekend_short_circuit (E : env) (w : world) :
  (forall d, is_business_day d = true <-> 0 <= weekday d < 5)
  /\ (forall d, is_business_day d = false <-> weekday d = 5 \/ weekday d = 6)
  /\ (forall d d', weekday d = weekday d' -> is_business_day d = is_business_day d')
  /\ is_business_day new_year = true
  /\ (weekday (now E) = 5 \/ weekday (now E) = 6 ->
      data_file (snd (run E w)) = data_file w
      /\ events (run E) w = [Makedirs "data"]
      /\ existsb is_network (events (run E) w) = false
      /\ existsb is_source (events (run E) w) = false
      /\ existsb is_write (events (run E) w) = false).
Proof.
  assert (forall d, is_business_day d = false <-> weekday d = 5 \/ weekday d = 6)
    as Hweekend.
  { intro d. unfold is_business_day. pose proof (weekday_range d).
    rewrite Z.ltb_ge. lia. }
  split; [| split; [exact Hweekend | split; [| split]]].
  - intro d. unfold is_business_day. pose proof (weekday_range d).
    rewrite Z.ltb_lt. lia.
  - intros d d' H. unfold is_business_day. rewrite H. reflexivity.
  - vm_compute. reflexivity.
  - intro H. apply Hweekend in H.
    assert (events (run E) w = [Makedirs "data"]) as Hev.
    { apply events_eq. rewrite (run_not_business_day E w H). reflexivity. }
    rewrite Hev, (run_not_business_day E w H). repeat split.
Qed.

Lemma weekend_short_circuit_witness :
  data_file (snd (run (sample_env saturday (nearest 40000))
                      (sample_world (sample_history 3))))
  = Document (PyList (sample_history 3))
  /\ events (run (sample_env sunday (nearest 40000)))
            (sample_world (sample_history 3))
     = [Makedirs "data"].
Proof.
  split.
  - apply (proj2 (proj2 (proj2 (proj2
      (weekend_short_circuit (sample_env saturday (nearest 40000))
                             (sample_world (sample_history 3))))))).
    left. vm_compute. reflexivity.
  - apply (proj2 (proj2 (proj2 (proj2
      (weekend_short_circuit (sample_env sunday (nearest 40000))
                             (sample_world (sample_history 3))))))).
    right. vm_compute. reflexivity.
Defined.

Lemma get_nikkei_price_latest (E : env) (w : world) (init : list row)
      (latest : row) (v : Z) :
  history_response E = Frame (init ++ [latest]) ->
  int_of_float (fdiv (Volume latest) (nearest 1000000)) = Ok v ->
  fst (get_nikkei_price E w)
  = Ok (Some {| price := round2 (Close latest);
                volume := v;
                date := strftime_Ymd (index latest) |}).
Proof.
  intros Hh Hv. unfold get_nikkei_price. mstep. rewrite Hh.
  rewrite rev_app_distr. cbn [rev app]. rewrite Hv. reflexivity.
Qed.

(** C7 — Quote fetch contract.  [get_nikkei_price] asks the provider for
    the history of period "5d" and takes the last row: the price is its
    close rounded to two decimal places, the volume is its volume divided
    by 1,000,000 and truncated to an integer, the date is its index in
    ISO form.  With no rows, or when the provider raises, it returns
    [None] instead of raising; and when it returns [None] the run ends
    without writing the document or changing the file. *)
Theorem quote_fetch_contract (E : env) (w : world) :
  events (get_nikkei_price E) w = [History "^N225" "5d"]
  /\ (forall init latest v,
         history_response E = Frame (init ++ [latest]) ->
         int_of_float (fdiv (Volume latest) (nearest 1000000)) = Ok v ->
         fst (get_nikkei_price E w)
         = Ok (Some {| price := round2 (Close latest);
                       volume := v;
                       date := strftime_Ymd (index latest) |}))
  /\ (history_response E = Frame [] -> fst (get_nikkei_price E w) = Ok None)
  /\ (forall e, history_response E = ProviderError e ->
                fst (get_nikkei_price E w) = Ok None)
  /\ (exists o, fst (get_nikkei_price E w) = Ok o)
  /\ (fst (get_nikkei_price E w) = Ok None -> quiet E w).
Proof.
  destruct (get_nikkei_price_result E) as [o Ho].
  split; [| split; [| split; [| split; [| split]]]].
  - apply events_eq. rewrite Ho. reflexivity.
  - intros init latest v. apply get_nikkei_price_latest.
  - intro H. unfold get_nikkei_price. mstep. rewrite H. reflexivity.
  - intros e H. unfold get_nikkei_price. mstep. rewrite H. reflexivity.
  - exists o. rewrite Ho. reflexivity.
  - intro H.
    destruct (run_cases E w)
      as [Hq | (items & q & metrics & change & evs & _ & _ & _ & _ & H5 & _)];
      [exact Hq |].
    rewrite H in H5. discriminate.
Qed.

Lemma quote_fetch_contract_witness :
  fst (get_nikkei_price (sample_env wednesday (float_lit 4000012345 5))
                        (sample_world []))
  = Ok (Some {| price := float_lit 4000012 2; volume := 123; date := "2026-11-04" |})
  /\ quiet {| makedirs_ok := true; now := wednesday;
              history_response := Frame [];
              get_response := Response 200; write_result := Written |}
           (sample_world (sample_history 3)).
Proof.
  split.
  - apply (proj1 (proj2
      (quote_fetch_contract (sample_env wednesday (float_lit 4000012345 5))
                            (sample_world [])))
      [ {| index := {| year := 2026; month := 11; day := 2 |};
           Close := float_lit 3950025 2;
           Volume := nearest 98765432 |} ]
      {| index := wednesday;
         Close := float_lit 4000012345 5;
         Volume := nearest 123456789 |}).
    + reflexivity.
    + vm_compute. reflexivity.
  - apply (proj2 (proj2 (proj2 (proj2 (proj2
      (quote_fetch_contract
         {| makedirs_ok := true; now := wednesday;
            history_response := Frame [];
            get_response := Response 200; write_result := Written |}
         (sample_world (sample_history 3)))))))).
    vm_compute. reflexivity.
Defined.

Lemma load_document (w : world) :
  fst (load_existing_data w) = Ok (document (data_file w)).
Proof. destruct (load_result w) as (evs & H & _). rewrite H. reflexivity. Qed.

Lemma entry_of_date (E : env) (q : quote) (bond_yield change : object)
      (price eps bps dividend : num) (metrics : dict) :
  calculate_metrics price eps bps dividend = Ok metrics ->
  lookup "date" (entry_of E q bond_yield metrics change)
  = Some (PyStr (strftime_Ymd (now E))).
Proof.
  intro H.
  destruct (entry_of_shape E q bond_yield change _ _ _ _ _ H)
    as (a & b & c & d & ->).
  reflexivity.
Qed.

Lemma entry_of_change (E : env) (q : quote) (bond_yield change : object)
      (price eps bps dividend : num) (metrics : dict) :
  calculate_metrics price eps bps dividend = Ok metrics ->
  lookup "change" (entry_of E q bond_yield metrics change) = Some change.
Proof.
  intro H.
  destruct (entry_of_shape E q bond_yield change _ _ _ _ _ H)
    as (a & b & c & d & ->).
  reflexivity.
Qed.



(** A run that wrote the document went through every step. *)
Lemma run_written (E : env) (w : world) (items : list object) :
  fst (load_existing_data w) = Ok (PyList items) ->
  existsb is_write (events (run E) w) = true ->
  exists q metrics change,
    fst (get_nikkei_price E w) = Ok (Some q)
    /\ any_date (strftime_Ymd (now E)) items = Ok false
    /\ calculate_metrics (Float (price q)) default_eps default_bps
         default_dividend = Ok metrics
    /\ change_of (PyList items) (price q) = Ok change
    /\ fst (run E w) = Ok tt
    /\ data_file (snd (run E w))
       = saved E (PyList (firstn 60
                   (PyDict (entry_of E q (PyNum (Float (float_lit 1485 3)))
                                     metrics change) :: items)))
               (data_file w).
Proof.
  intros Hl Hw.
  destruct (run_cases E w)
    as [Hq | (items' & q & metrics & change & evs & _ & _ & Hl' & Hany & Hq
              & Hcm & Hch & Hrun)].
  - destruct (quiet_not_written E w Hq Hw).
  - rewrite Hl in Hl'. inversion Hl'; subst items'.
    cbv zeta in Hrun. destruct Hrun as (Hr & _ & _ & Hf).
    exists q, metrics, change. repeat split; assumption.
Qed.

(** The converse: when no step stops it, the run hands the new document
    to [save_data]. *)
Lemma run_success (E : env) (w : world) (items : list object) (q : quote)
      (metrics : dict) (change : object) :
  makedirs_ok E = true ->
  is_business_day (now E) = true ->
  fst (load_existing_data w) = Ok (PyList items) ->
  any_date (strftime_Ymd (now E)) items = Ok false ->
  fst (get_nikkei_price E w) = Ok (Some q) ->
  calculate_metrics (Float (price q)) default_eps default_bps default_dividend
    = Ok metrics ->
  change_of (PyList items) (price q) = Ok change ->
  fst (run E w) = Ok tt
  /\ existsb is_write (events (run E) w) = true
  /\ data_file (snd (run E w))
     = saved E (PyList (firstn 60
                 (PyDict (entry_of E q (PyNum (Float (float_lit 1485 3)))
                                   metrics change) :: items)))
             (data_file w).
Proof.
  intros Hmk Hbd Hl Hany Hq Hcm Hch.
  destruct (get_nikkei_price_result E) as [o Ho].
  rewrite Ho in Hq. cbn [fst] in Hq. inversion Hq; subst o.
  rewrite load_document in Hl. inversion Hl as [Hdoc].
  assert (exists evs,
             run E w
             = (Ok tt,
                {| data_file :=
                     saved E (PyList (firstn 60
                       (PyDict (entry_of E q (PyNum (Float (float_lit 1485 3)))
                                         metrics change) :: items)))
                       (data_file w);
                   trace := trace w ++ evs |})
             /\ existsb is_write evs = true) as (evs & Hrun & Hw).
  { unfold run, ensure_data_directory. mstep. rewrite Hmk, Hbd. cbn [negb].
    destruct (load_result (log (Makedirs "data") w)) as (revs & Hlr & _).
    rewrite Hlr. cbn [data_file trace log]. rewrite Hdoc. cbn [iter rbind].
    rewrite Hany, Ho, get_bond_yield_eq.
    edestruct (invoked_sources E) as (yevs & Hy & _).
    rewrite Hy. clear Hy. cbn [data_file trace log].
    rewrite Hcm, Hch. cbn [insert0 slice_to]. unfold save_data, saved, entry_of.
    exists (Makedirs "data" :: revs ++ History ticker "5d" :: yevs
              ++ [WriteFile data_file_path
                    (PyList (firstn 60
                       (PyDict (entry_of E q (PyNum (Float (float_lit 1485 3)))
                                         metrics change) :: items)))]).
    split.
    - destruct (write_result E); unfold store, log; norm_trace;
        repeat (progress (rewrite <- ?app_assoc; cbn [app])); reflexivity.
    - cbn [existsb is_write orb]. rewrite existsb_app.
      cbn [existsb is_write orb]. rewrite existsb_app.
      cbn [existsb is_write orb]. rewrite !orb_true_r. reflexivity. }
  rewrite (events_eq (run E) w evs) by (rewrite Hrun; reflexivity).
  rewrite Hrun. repeat split. exact Hw.
Qed.

(** C2, as stated, fails: the new entry is put in front whatever the
    dates stored.  With a single stored entry dated 2026-11-05 and a run
    on 2026-11-04, the document written has the dates 2026-11-04,
    2026-11-05 in this order: it is not newest first. *)
Lemma later_date_stored_breaks_order : ~ retention_keeps_newest_first.
Proof.
  intro H.
  assert (exists persisted,
             data_file (snd (run (sample_env wednesday (nearest 40000))
                                 (sample_world
                                    [PyDict [("date", PyStr "2026-11-05");
                                             ("price", PyNum (Float (nearest 39500)))]])))
             = Document (PyList persisted)
             /\ dates persisted = [Some "2026-11-04"; Some "2026-11-05"])
    as (persisted & Hf & Hd)
      by (vm_compute; eexists; split; reflexivity).
  destruct (H (sample_env wednesday (nearest 40000))
              (sample_world [PyDict [("date", PyStr "2026-11-05");
                                     ("price", PyNum (Float (nearest 39500)))]])
              [PyDict [("date", PyStr "2026-11-05");
                       ("price", PyNum (Float (nearest 39500)))]]
              persisted) as (_ & _ & Hs).
  - reflexivity.
  - cbn. lia.
  - apply nodupb_sound. vm_compute. reflexivity.
  - apply newest_firstb_sound. vm_compute. reflexivity.
  - reflexivity.
  - vm_compute. reflexivity.
  - exact Hf.
  - unfold newest_first in Hs. rewrite Hd in Hs.
    apply StronglySorted_inv in Hs. destruct Hs as [_ Hall].
    inversion Hall as [| ? ? Hnewer _]; subst.
    cbn [newer] in Hnewer. vm_compute in Hnewer. discriminate.
Qed.

(** C2, amended — Retention and uniqueness.  Take a history of at most 60
    entries with pairwise distinct dates.  A run that writes the document
    puts exactly one new entry, dated today, in front of it and keeps the
    first 60 entries, so that at most one entry, the last, is dropped; the
    document written has at most 60 entries, no two of them with the same
    date; and it is newest first provided the history was newest first and
    all its dates were before today. *)
Theorem retention_and_uniqueness (E : env) (w : world) (items : list object) :
  fst (load_existing_data w) = Ok (PyList items) ->
  (List.length items <= 60)%nat ->
  NoDup (dates items) ->
  write_result E = Written ->
  existsb is_write (events (run E) w) = true ->
  exists new_entry,
    entry_date (PyDict new_entry) = Some (strftime_Ymd (now E))
    /\ data_file (snd (run E w))
       = Document (PyList (firstn 60 (PyDict new_entry :: items)))
    /\ firstn 60 (PyDict new_entry :: items) = PyDict new_entry :: firstn 59 items
    /\ items = firstn 59 items ++ skipn 59 items
    /\ (List.length (skipn 59 items) <= 1)%nat
    /\ (List.length (firstn 60 (PyDict new_entry :: items)) <= 60)%nat
    /\ NoDup (dates (firstn 60 (PyDict new_entry :: items)))
    /\ (newest_first items ->
        Forall (newer (Some (strftime_Ymd (now E)))) (dates items) ->
        newest_first (firstn 60 (PyDict new_entry :: items))).
Proof.
  intros Hl Hlen Hnd Hwr Hw.
  destruct (run_written E w items Hl Hw)
    as (q & metrics & change & _ & Hany & Hcm & _ & _ & Hf).
  unfold saved in Hf. rewrite Hwr in Hf.
  pose proof (entry_of_date E q (PyNum (Float (float_lit 1485 3))) change
                _ _ _ _ _ Hcm) as Hdate.
  set (new_entry := entry_of E q (PyNum (Float (float_lit 1485 3))) metrics change)
    in *.
  assert (entry_date (PyDict new_entry) = Some (strftime_Ymd (now E))) as Hed.
  { cbn [entry_date]. rewrite Hdate. reflexivity. }
  exists new_entry.
  split; [exact Hed |].
  split; [exact Hf |].
  split; [reflexivity |].
  split; [symmetry; apply firstn_skipn |].
  split; [rewrite length_skipn; lia |].
  split; [apply firstn_le_length |].
  split.
  - unfold dates. rewrite <- firstn_map. apply NoDup_firstn.
    cbn [map]. rewrite Hed. constructor; [| exact Hnd].
    exact (any_date_dates _ _ Hany).
  - intros Hs Hnew. unfold newest_first, dates. rewrite <- firstn_map.
    apply StronglySorted_firstn. cbn [map]. rewrite Hed.
    constructor; [exact Hs | exact Hnew].
Qed.

Lemma retention_and_uniqueness_witness :
  exists new_entry,
    data_file (snd (run (sample_env wednesday (nearest 40000))
                        (sample_world (sample_history 60))))
    = Document (PyList (PyDict new_entry :: sample_history 59))
    /\ entry_date (PyDict new_entry) = Some "2026-11-04"
    /\ newest_first (PyDict new_entry :: sample_history 59).
Proof.
  destruct (retention_and_uniqueness
              (sample_env wednesday (nearest 40000))
              (sample_world (sample_history 60))
              (sample_history 60))
    as (new_entry & Hd & Hf & Hcut & _ & _ & _ & _ & Hs).
  - reflexivity.
  - vm_compute. repeat constructor.
  - apply nodupb_sound. vm_compute. reflexivity.
  - reflexivity.
  - vm_compute. reflexivity.
  - exists new_entry. split; [| split].
    + rewrite Hf, Hcut. reflexivity.
    + exact Hd.
    + rewrite Hcut in Hs. apply Hs.
      * apply newest_firstb_sound. vm_compute. reflexivity.
      * apply Forall_forall. intros d Hin.
        assert (forallb (fun b => match b with
                                  | Some y => (y <? "2026-11-04")%string
                                  | None => false
                                  end) (dates (sample_history 60)) = true) as Hall
          by (vm_compute; reflexivity).
        rewrite forallb_forall in Hall. specialize (Hall d Hin).
        destruct d; [exact Hall | discriminate].
Defined.


Lemma change_of_first (first : dict) (others : list object) (price : float) :
  change_of (PyList (PyDict first :: others)) price
  = rbind (as_num (match lookup "price" first with
                   | Some v => v
                   | None => PyNum (Float price)
                   end))
          (fun prev => rbind (sub price prev)
                             (fun d => Ok (PyNum (Float (round2 d))))).
Proof. reflexivity. Qed.



(** C10, as stated, fails: when the close is NaN the fetched price is
    NaN, and with a first entry that has no price the change written is
    NaN, not 0.0. *)
Lemma nan_price_gives_nan_change : ~ missing_price_gives_zero.
Proof.
  intro H.
  specialize (H (sample_env wednesday S754_nan)
                (sample_world [PyDict [("date", PyStr "2026-11-02")]])
                [("date", PyStr "2026-11-02")] []
                [("date", PyStr "2026-11-04");
                 ("price", PyNum (Float S754_nan));
                 ("volume", PyNum (Int 123));
                 ("bond_yield", PyNum (Float (float_lit 1485 3)));
                 ("per", PyNum (Float S754_nan));
                 ("pbr", PyNum (Float S754_nan));
                 ("eps", PyNum (Int 2500));
                 ("bps", PyNum (Int 27500));
                 ("yield_rate", PyNum (Float S754_nan));
                 ("dividend_yield", PyNum (Float S754_nan));
                 ("change", PyNum (Float S754_nan))]
                [PyDict [("date", PyStr "2026-11-02")]]
                eq_refl eq_refl).
  assert (Some (PyNum (Float S754_nan)) = Some (PyNum (Float (S754_zero false))))
    as Habs.
  { apply H; vm_compute; reflexivity. }
  discriminate Habs.
Qed.

(** C10, amended — Missing price.  When the first entry of a non-empty
    loaded history has no [price], the previous price defaults to the
    fetched price and no error is raised: the change is the fetched price
    minus itself, rounded, which is 0.0 for every finite price (for a NaN
    or infinite price it is NaN). *)
Theorem missing_price_change (E : env) (w : world) (first : dict)
        (others : list object) (q : quote) :
  fst (load_existing_data w) = Ok (PyList (PyDict first :: others)) ->
  lookup "price" first = None ->
  fst (get_nikkei_price E w) = Ok (Some q) ->
  write_result E = Written ->
  existsb is_write (events (run E) w) = true ->
  change_of (PyList (PyDict first :: others)) (price q)
  = Ok (PyNum (Float (round2 (fsub (price q) (price q)))))
  /\ fst (run E w) = Ok tt
  /\ (exists new_entry rest,
         data_file (snd (run E w)) = Document (PyList (PyDict new_entry :: rest))
         /\ lookup "change" new_entry
            = Some (PyNum (Float (round2 (fsub (price q) (price q)))))
         /\ (is_finite (price q) = true ->
             lookup "change" new_entry = Some (PyNum (Float (S754_zero false))))
         /\ (is_finite (price q) = false ->
             lookup "change" new_entry = Some (PyNum (Float S754_nan)))).
Proof.
  intros Hl Hp Hq Hwr Hw.
  assert (change_of (PyList (PyDict first :: others)) (price q)
          = Ok (PyNum (Float (round2 (fsub (price q) (price q)))))) as Hzero.
  { rewrite change_of_first, Hp. reflexivity. }
  split; [exact Hzero |].
  destruct (run_written E w _ Hl Hw)
    as (q' & metrics & change & Hq' & _ & Hcm & Hch & Hr & Hf).
  rewrite Hq in Hq'. inversion Hq'; subst q'.
  split; [exact Hr |].
  unfold saved in Hf. rewrite Hwr in Hf. cbn [firstn] in Hf.
  rewrite Hzero in Hch. inversion Hch; subst change.
  pose proof (entry_of_change E q (PyNum (Float (float_lit 1485 3)))
                (PyNum (Float (round2 (fsub (price q) (price q)))))
                _ _ _ _ _ Hcm) as Hchange.
  eexists _, _. split; [exact Hf |].
  split; [exact Hchange |].
  split; intro Hfin; rewrite Hchange.
  - rewrite (fsub_diag _ Hfin). reflexivity.
  - destruct (price q) as [s | s | | s m e]; try discriminate Hfin;
      try destruct s; reflexivity.
Qed.

Lemma missing_price_change_witness :
  exists new_entry rest,
    data_file (snd (run (sample_env wednesday (nearest 40000))
                        (sample_world [PyDict [("date", PyStr "2026-11-02")]])))
    = Document (PyList (PyDict new_entry :: rest))
    /\ lookup "change" new_entry = Some (PyNum (Float (S754_zero false))).
Proof.
  destruct (missing_price_change
              (sample_env wednesday (nearest 40000))
              (sample_world [PyDict [("date", PyStr "2026-11-02")]])
              [("date", PyStr "2026-11-02")] []
              {| price := nearest 40000; volume := 123; date := "2026-11-04" |})
    as (_ & _ & new_entry & rest & Hf & _ & Hc & _).
  - reflexivity.
  - reflexivity.
  - vm_compute. reflexivity.
  - reflexivity.
  - vm_compute. reflexivity.
  - exists new_entry, rest. split; [exact Hf |]. apply Hc. reflexivity.
Defined.

(* ================================================================== *)
(** * Further properties of the code *)

(** ** The run, stage by stage *)

Lemma run_makedirs_fails (E : env) (w : world) :
  makedirs_ok E = false ->
  run E w = (Raise OSError, log (Makedirs "data") w).
Proof.
  intro H. unfold run, ensure_data_directory. mstep. rewrite H. reflexivity.
Qed.

Lemma load_eq (w : world) :
  load_existing_data w = (Ok (document (data_file w)), snd (load_existing_data w)).
Proof. unfold load_existing_data. destruct (data_file w); reflexivity. Qed.

(** The run up to the check for today's entry. *)
Lemma run_checked (E : env) (w : world) :
  makedirs_ok E = true ->
  is_business_day (now E) = true ->
  already_updated E w <> Ok false ->
  run E w
  = (match already_updated E w with
     | Ok _ => Ok tt
     | Raise e => Raise e
     end,
     snd (load_existing_data (log (Makedirs "data") w))).
Proof.
  unfold already_updated.
  intros Hmk Hbd Hany. unfold run, ensure_data_directory. mstep.
  rewrite Hmk, Hbd. cbn [negb].
  rewrite (load_eq (log (Makedirs "data") w)). cbn [data_file log].
  destruct (rbind (iter (document (data_file w)))
                  (any_date (strftime_Ymd (now E)))) as [[|] | e];
    [reflexivity | contradiction Hany; reflexivity | reflexivity].
Qed.

(** The run when the check passes and no quote is available. *)
Lemma run_no_quote (E : env) (w : world) :
  makedirs_ok E = true ->
  is_business_day (now E) = true ->
  already_updated E w = Ok false ->
  fst (get_nikkei_price E w) = Ok None ->
  run E w
  = (Ok tt,
     log (History ticker "5d")
         (snd (load_existing_data (log (Makedirs "data") w)))).
Proof.
  unfold already_updated. intros Hmk Hbd Hany Hq.
  destruct (get_nikkei_price_result E) as [o Ho].
  rewrite Ho in Hq. cbn [fst] in Hq. inversion Hq; subst o.
  unfold run, ensure_data_directory. mstep.
  rewrite Hmk, Hbd. cbn [negb].
  rewrite (load_eq (log (Makedirs "data") w)). cbn [data_file log].
  rewrite Hany, Ho. reflexivity.
Qed.

(** The run once the quote is there: the yield is fetched, then the
    metrics, the change and the new document are computed in turn. *)
Lemma run_fetched (E : env) (w : world) (q : quote) :
  makedirs_ok E = true ->
  is_business_day (now E) = true ->
  already_updated E w = Ok false ->
  fst (get_nikkei_price E w) = Ok (Some q) ->
  let doc := document (data_file w) in
  let w3 :=
    snd (get_bond_yield E
           (log (History ticker "5d")
                (snd (load_existing_data (log (Makedirs "data") w))))) in
  run E w
  = match calculate_metrics (Float (price q)) default_eps default_bps
                            default_dividend with
    | Raise e => (Raise e, w3)
    | Ok metrics =>
        match change_of doc (price q) with
        | Raise e => (Raise e, w3)
        | Ok change =>
            match insert0 doc (PyDict (entry_of E q
                                 (PyNum (Float (float_lit 1485 3)))
                                 metrics change)) with
            | Raise e => (Raise e, w3)
            | Ok d1 =>
                match slice_to 60 d1 with
                | Raise e => (Raise e, w3)
                | Ok d2 => save_data E d2 w3
                end
            end
        end
    end.
Proof.
  intros Hmk Hbd Hany Hq doc w3. subst doc w3. unfold already_updated in Hany.
  destruct (get_nikkei_price_result E) as [o Ho].
  rewrite Ho in Hq. cbn [fst] in Hq. inversion Hq; subst o.
  unfold run, ensure_data_directory. mstep.
  rewrite Hmk, Hbd. cbn [negb].
  rewrite (load_eq (log (Makedirs "data") w)). cbn [data_file log].
  rewrite Hany, Ho.
  rewrite !get_bond_yield_eq. cbn [snd].
  destruct (calculate_metrics (Float (price q)) default_eps default_bps
              default_dividend) as [metrics | e]; [| reflexivity].
  destruct (change_of (document (data_file w)) (price q)) as [change | e];
    [| reflexivity].
  unfold entry_of.
  destruct (insert0 _ _) as [d1 | e]; [| reflexivity].
  destruct (slice_to 60 d1) as [d2 | e]; reflexivity.
Qed.

(** The three worlds a run goes through before it writes differ from the
    first one by the calls logged. *)
Lemma stage_loaded (w : world) :
  exists evs,
    snd (load_existing_data (log (Makedirs "data") w))
    = {| data_file := data_file w; trace := trace w ++ Makedirs "data" :: evs |}
    /\ existsb is_write evs = false
    /\ existsb is_network evs = false
    /\ existsb is_source evs = false.
Proof.
  unfold load_existing_data, log. cbn [data_file trace].
  destruct (data_file w); cbn [snd data_file trace];
    rewrite <- ?app_assoc; cbn [app]; eexists; repeat split.
Qed.

(** ** [calculate_metrics] with the default constants *)

Lemma float_of_int_defaults :
  float_of_int 2500 = Ok (nearest 2500)
  /\ float_of_int 27500 = Ok (nearest 27500)
  /\ float_of_int 900 = Ok (nearest 900)
  /\ is_zero (nearest 2500) = false
  /\ is_zero (nearest 27500) = false.
Proof. repeat split; vm_compute; reflexivity. Qed.

Lemma calculate_metrics_default (p : float) :
  calculate_metrics (Float p) default_eps default_bps default_dividend
  = if is_zero (fdiv p (nearest 2500)) || is_zero p
    then Raise ZeroDivisionError
    else Ok [("per", PyNum (Float (round2 (fdiv p (nearest 2500)))));
             ("pbr", PyNum (Float (round2 (fdiv p (nearest 27500)))));
             ("eps", PyNum (Int 2500));
             ("bps", PyNum (Int 27500));
             ("yield_rate",
              PyNum (Float (round2 (fdiv (nearest 100)
                                         (fdiv p (nearest 2500))))));
             ("dividend_yield",
              PyNum (Float (round2 (fmul (fdiv (nearest 900) p)
                                         (nearest 100)))))].
Proof.
  destruct float_of_int_defaults as (H1 & H2 & H3 & Z1 & Z2).
  unfold calculate_metrics, default_eps, default_bps, default_dividend.
  rewrite (truediv_float p (Int 2500) (nearest 2500) H1), Z1.
  rewrite (truediv_float p (Int 27500) (nearest 27500) H2), Z2.
  cbn [rbind].
  rewrite (truediv_by_float (Int 100) (nearest 100) _ float_of_int_100).
  destruct (is_zero (fdiv p (nearest 2500))); cbn [rbind orb]; [reflexivity |].
  rewrite (truediv_by_float (Int 900) (nearest 900) p H3).
  destruct (is_zero p); cbn [rbind]; [reflexivity |].
  rewrite mul_100. reflexivity.
Qed.

(** X2 — The entry a run writes.  In a run that writes the document the
    new entry has exactly the eleven fields date, price, volume,
    bond_yield, per, pbr, eps, bps, yield_rate, dividend_yield and change,
    in this order: the date is today's date (the date of the quote is not
    stored), the bond yield is 1.485, eps and bps are the ints 2500 and
    27500, and the four ratios are computed from the fetched price with
    2500, 27500 and 900; the fetched price is not zero. *)
Theorem written_entry (E : env) (w : world) (items : list object) (q : quote) :
  fst (load_existing_data w) = Ok (PyList items) ->
  fst (get_nikkei_price E w) = Ok (Some q) ->
  write_result E = Written ->
  existsb is_write (events (run E) w) = true ->
  is_zero (price q) = false
  /\ exists change,
      change_of (PyList items) (price q) = Ok change
      /\ data_file (snd (run E w))
         = Document (PyList (firstn 60
             (PyDict
                [("date", PyStr (strftime_Ymd (now E)));
                 ("price", PyNum (Float (price q)));
                 ("volume", PyNum (Int (volume q)));
                 ("bond_yield", PyNum (Float (float_lit 1485 3)));
                 ("per", PyNum (Float (round2 (fdiv (price q) (nearest 2500)))));
                 ("pbr", PyNum (Float (round2 (fdiv (price q) (nearest 27500)))));
                 ("eps", PyNum (Int 2500));
                 ("bps", PyNum (Int 27500));
                 ("yield_rate",
                  PyNum (Float (round2 (fdiv (nearest 100)
                                             (fdiv (price q) (nearest 2500))))));
                 ("dividend_yield",
                  PyNum (Float (round2 (fmul (fdiv (nearest 900) (price q))
                                             (nearest 100)))));
                 ("change", change)]
              :: items))).
Proof.
  intros Hl Hq Hwr Hw.
  destruct (run_written E w items Hl Hw)
    as (q' & metrics & change & Hq' & _ & Hcm & Hch & _ & Hf).
  rewrite Hq in Hq'. inversion Hq'; subst q'.
  unfold saved in Hf. rewrite Hwr in Hf.
  rewrite calculate_metrics_default in Hcm.
  destruct (is_zero (fdiv (price q) (nearest 2500))); cbn [orb] in Hcm;
    [discriminate |].
  destruct (is_zero (price q)); [discriminate |].
  inversion Hcm; subst metrics.
  split; [reflexivity |].
  exists change. split; [exact Hch | exact Hf].
Qed.

Lemma written_entry_witness :
  exists change,
    data_file (snd (run (sample_env wednesday (nearest 40000))
                        (sample_world (sample_history 2))))
    = Document (PyList
        (PyDict
           [("date", PyStr "2026-11-04");
            ("price", PyNum (Float (nearest 40000)));
            ("volume", PyNum (Int 123));
            ("bond_yield", PyNum (Float (float_lit 1485 3)));
            ("per", PyNum (Float (nearest 16)));
            ("pbr", PyNum (Float (float_lit 145 2)));
            ("eps", PyNum (Int 2500));
            ("bps", PyNum (Int 27500));
            ("yield_rate", PyNum (Float (float_lit 625 2)));
            ("dividend_yield", PyNum (Float (float_lit 225 2)));
            ("change", change)]
         :: sample_history 2)).
Proof.
  destruct (written_entry (sample_env wednesday (nearest 40000))
              (sample_world (sample_history 2)) (sample_history 2)
              {| price := nearest 40000; volume := 123; date := "2026-11-04" |})
    as (_ & change & _ & Hf).
  - reflexivity.
  - vm_compute. reflexivity.
  - reflexivity.
  - vm_compute. reflexivity.
  - exists change. rewrite Hf. vm_compute. reflexivity.
Defined.

(** X3 — A NaN price is not rejected.  With eps and bps that convert
    to non-zero floats, [calculate_metrics] on a NaN price raises nothing
    and returns NaN for per, pbr, yield rate and dividend yield. *)
Theorem calculate_metrics_nan (eps bps dividend : num) (e b d : float) :
  to_float eps = Ok e -> to_float bps = Ok b -> to_float dividend = Ok d ->
  is_zero e = false -> is_zero b = false ->
  calculate_metrics (Float S754_nan) eps bps dividend
  = Ok [("per", PyNum (Float S754_nan));
        ("pbr", PyNum (Float S754_nan));
        ("eps", PyNum eps);
        ("bps", PyNum bps);
        ("yield_rate", PyNum (Float S754_nan));
        ("dividend_yield", PyNum (Float S754_nan))].
Proof.
  intros He Hb Hd Ze Zb.
  assert (forall y, fdiv S754_nan y = S754_nan) as Hn by (intros []; reflexivity).
  assert (forall x, fdiv x S754_nan = S754_nan) as Hn' by (intros []; reflexivity).
  unfold calculate_metrics.
  rewrite (truediv_float _ eps e He), Ze, (truediv_float _ bps b Hb), Zb.
  cbn [rbind]. rewrite !Hn.
  rewrite (truediv_by_float (Int 100) (nearest 100) _ float_of_int_100).
  cbn [is_zero rbind]. rewrite Hn'.
  rewrite (truediv_by_float dividend d _ Hd). cbn [is_zero rbind].
  rewrite Hn', mul_100. reflexivity.
Qed.

Lemma calculate_metrics_nan_witness :
  calculate_metrics (Float S754_nan) default_eps default_bps default_dividend
  = Ok [("per", PyNum (Float S754_nan));
        ("pbr", PyNum (Float S754_nan));
        ("eps", PyNum (Int 2500));
        ("bps", PyNum (Int 27500));
        ("yield_rate", PyNum (Float S754_nan));
        ("dividend_yield", PyNum (Float S754_nan))].
Proof.
  apply (calculate_metrics_nan (Int 2500) (Int 27500) (Int 900)
           (nearest 2500) (nearest 27500) (nearest 900));
    vm_compute; reflexivity.
Defined.

(** ** [get_nikkei_price] *)

Lemma int_of_float_not_finite (x : float) :
  is_finite x = false ->
  exists e, int_of_float (fdiv x (nearest 1000000)) = Raise e.
Proof.
  assert (exists m e, nearest 1000000 = S754_finite false m e) as (m & e & ->)
    by (vm_compute; do 2 eexists; reflexivity).
  destruct x as [s | s | | s m' e']; cbn [is_finite]; try discriminate; intros _.
  - exists OverflowError. reflexivity.
  - exists ValueError. reflexivity.
Qed.

(** X4 — Only the last row counts, and its volume must be finite.  Two
    frames with the same last row give the same quote, whatever rows come
    before; and a last row whose volume is NaN or infinite gives [None],
    even when its close is a proper price. *)
Theorem quote_from_last_row (E E' : env) (w w' : world)
        (init init' : list row) (latest : row) :
  history_response E = Frame (init ++ [latest]) ->
  history_response E' = Frame (init' ++ [latest]) ->
  fst (get_nikkei_price E w) = fst (get_nikkei_price E' w')
  /\ (is_finite (Volume latest) = false ->
      fst (get_nikkei_price E w) = Ok None).
Proof.
  intros H H'.
  assert (forall E0 w0 init0,
             history_response E0 = Frame (init0 ++ [latest]) ->
             fst (get_nikkei_price E0 w0)
             = match int_of_float (fdiv (Volume latest) (nearest 1000000)) with
               | Ok v => Ok (Some {| price := round2 (Close latest);
                                     volume := v;
                                     date := strftime_Ymd (index latest) |})
               | Raise _ => Ok None
               end) as Heq.
  { intros E0 w0 init0 H0. unfold get_nikkei_price. mstep. rewrite H0.
    rewrite rev_app_distr. cbn [rev app].
    destruct (int_of_float _); reflexivity. }
  split.
  - rewrite (Heq E w init H), (Heq E' w' init' H'). reflexivity.
  - intro Hv. rewrite (Heq E w init H).
    destruct (int_of_float_not_finite _ Hv) as [e ->]. reflexivity.
Qed.

Lemma quote_from_last_row_witness :
  fst (get_nikkei_price
         {| makedirs_ok := true; now := wednesday;
            history_response :=
              Frame [ {| index := wednesday; Close := nearest 40000;
                         Volume := S754_nan |} ];
            get_response := Response 200; write_result := Written |}
         (sample_world []))
  = Ok None.
Proof.
  apply (proj2 (quote_from_last_row
           {| makedirs_ok := true; now := wednesday;
              history_response :=
                Frame [ {| index := wednesday; Close := nearest 40000;
                           Volume := S754_nan |} ];
              get_response := Response 200; write_result := Written |}
           {| makedirs_ok := true; now := wednesday;
              history_response :=
                Frame [ {| index := wednesday; Close := nearest 40000;
                           Volume := S754_nan |} ];
              get_response := Response 200; write_result := Written |}
           (sample_world []) (sample_world []) [] []
           {| index := wednesday; Close := nearest 40000; Volume := S754_nan |}
           eq_refl eq_refl)).
  reflexivity.
Defined.

(** ** [get_bond_yield] *)

Lemma get_bond_yield_world (E : env) (w : world) :
  snd (get_bond_yield E w)
  = {| data_file := data_file w;
       trace := trace w ++
         Source "_get_yield_from_investing"
         :: Get "https://www.investing.com/rates-bonds/japan-10-year-bond-yield" 10
         :: (if responded_200 E then []
             else [Source "_get_yield_from_tradingview";
                   Source "_get_yield_fallback"]) |}.
Proof.
  rewrite get_bond_yield_eq. cbn [snd].
  destruct (responded_200 E);
    cbn [invoked firstn sources fold_left call name];
    rewrite investing_eq;
    unfold _get_yield_from_tradingview, _get_yield_fallback; mstep;
    unfold log; norm_trace; reflexivity.
Qed.

(** X5 — The calls of [get_bond_yield].  It leaves the file alone and
    sends exactly one request to investing.com, with a timeout of 10;
    the other two sources are called, in order, only when that request
    was not answered with status 200. *)
Theorem get_bond_yield_calls (E : env) (w : world) :
  data_file (snd (get_bond_yield E w)) = data_file w
  /\ events (get_bond_yield E) w
     = Source "_get_yield_from_investing"
       :: Get "https://www.investing.com/rates-bonds/japan-10-year-bond-yield" 10
       :: (if responded_200 E then []
           else [Source "_get_yield_from_tradingview";
                 Source "_get_yield_fallback"])
  /\ List.length (filter is_get (events (get_bond_yield E) w)) = 1%nat.
Proof.
  assert (events (get_bond_yield E) w
          = Source "_get_yield_from_investing"
            :: Get "https://www.investing.com/rates-bonds/japan-10-year-bond-yield" 10
            :: (if responded_200 E then []
                else [Source "_get_yield_from_tradingview";
                      Source "_get_yield_fallback"])) as Hev.
  { apply events_eq. rewrite get_bond_yield_world. reflexivity. }
  split; [rewrite get_bond_yield_world; reflexivity |].
  split; [exact Hev |].
  rewrite Hev. destruct (responded_200 E); reflexivity.
Qed.

(** ** The check for today's entry *)



(** ** How a run fails *)

Lemma already_updated_list (E : env) (w : world) (items : list object) :
  document (data_file w) = PyList items ->
  already_updated E w = any_date (strftime_Ymd (now E)) items.
Proof. intro H. unfold already_updated. rewrite H. reflexivity. Qed.

Lemma quiet_of_run (E : env) (w : world) (r : result unit) (evs : list event) :
  run E w = (r, {| data_file := data_file w; trace := trace w ++ evs |}) ->
  existsb is_write evs = false ->
  quiet E w /\ events (run E) w = evs.
Proof.
  intros H Hw.
  assert (events (run E) w = evs) as Hev by (apply events_eq; rewrite H; reflexivity).
  split; [| exact Hev]. split; [rewrite H; reflexivity | rewrite Hev; exact Hw].
Qed.





Lemma any_date_app (today_str : string) (pre rest : list object) :
  any_date today_str pre = Ok false ->
  any_date today_str (pre ++ rest) = any_date today_str rest.
Proof.
  induction pre as [| item pre IH]; cbn [app any_date]; intro H; [reflexivity |].
  destruct (get item "date" PyNone) as [v | e]; cbn [rbind] in *; [| discriminate].
  destruct (eq_str v today_str); [discriminate | exact (IH H)].
Qed.

(** X8 — An item that is not an object.  When the stored list holds an
    item that is not a dict, and no item before it carries today's
    date, the check for today's entry raises [AttributeError]: the run
    ends there, before any network call, and writes nothing. *)
Theorem malformed_item_raises (E : env) (w : world)
        (pre post : list object) (bad : object) :
  makedirs_ok E = true ->
  is_business_day (now E) = true ->
  document (data_file w) = PyList (pre ++ bad :: post) ->
  any_date (strftime_Ymd (now E)) pre = Ok false ->
  (forall d, bad <> PyDict d) ->
  fst (run E w) = Raise AttributeError
  /\ quiet E w
  /\ existsb is_network (events (run E) w) = false.
Proof.
  intros Hmk Hbd Hd Hpre Hbad.
  assert (already_updated E w = Raise AttributeError) as Hu.
  { rewrite (already_updated_list E w _ Hd), (any_date_app _ _ _ Hpre).
    cbn [any_date].
    destruct bad as [| b | n | s | l | d]; try reflexivity.
    contradiction (Hbad d); reflexivity. }
  pose proof (run_checked E w Hmk Hbd) as Hrun.
  rewrite Hu in Hrun. specialize (Hrun ltac:(discriminate)).
  destruct (stage_loaded w) as (evs & Hw1 & Hw & Hn & _).
  rewrite Hw1 in Hrun.
  destruct (quiet_of_run E w _ _ Hrun) as [Hquiet Hev].
  { cbn [existsb is_write orb]. exact Hw. }
  split; [rewrite Hrun; reflexivity |].
  split; [exact Hquiet |].
  rewrite Hev. cbn [existsb is_network orb]. exact Hn.
Qed.

Lemma malformed_item_raises_witness :
  fst (run (sample_env wednesday (nearest 40000))
           (sample_world (sample_history 2 ++ [PyNum (Int 7)])))
  = Raise AttributeError.
Proof.
  apply (malformed_item_raises (sample_env wednesday (nearest 40000))
           (sample_world (sample_history 2 ++ [PyNum (Int 7)]))
           (sample_history 2) [] (PyNum (Int 7))).
  - reflexivity.
  - vm_compute. reflexivity.
  - reflexivity.
  - vm_compute. reflexivity.
  - discriminate.
Defined.





(** ** The calls of a run *)

Lemma existsb_get_network (l : list event) :
  existsb is_network l = false -> existsb is_get l = false.
Proof.
  induction l as [| ev l IH]; [reflexivity |]. cbn [existsb].
  intro H. apply orb_false_iff in H. destruct H as [H1 H2].
  rewrite (IH H2). destruct ev; try reflexivity; discriminate H1.
Qed.

(** The calls of a run that got a quote: the directory, the file, the
    quote, the yield, and then at most the write. *)
Lemma run_fetched_events (E : env) (w : world) (q : quote) :
  makedirs_ok E = true ->
  is_business_day (now E) = true ->
  already_updated E w = Ok false ->
  fst (get_nikkei_price E w) = Ok (Some q) ->
  exists evs tail,
    events (run E) w
    = Makedirs "data" :: evs ++ History ticker "5d"
      :: Source "_get_yield_from_investing"
      :: Get "https://www.investing.com/rates-bonds/japan-10-year-bond-yield" 10
      :: tail
    /\ existsb is_network evs = false.
Proof.
  intros Hmk Hbd Hu Hq.
  pose proof (run_fetched E w q Hmk Hbd Hu Hq) as Hrun. cbv zeta in Hrun.
  rewrite get_bond_yield_world in Hrun.
  destruct (stage_loaded w) as (evs & Hw1 & _ & Hn & _).
  rewrite Hw1 in Hrun. unfold log in Hrun. cbn [data_file trace] in Hrun.
  exists evs.
  assert (forall r f t,
             run E w = (r, {| data_file := f;
                              trace := ((trace w ++ Makedirs "data" :: evs)
                                        ++ [History ticker "5d"])
                                       ++ Source "_get_yield_from_investing"
                                       :: Get "https://www.investing.com/rates-bonds/japan-10-year-bond-yield" 10
                                       :: t |}) ->
             events (run E) w
             = Makedirs "data" :: evs ++ History ticker "5d"
               :: Source "_get_yield_from_investing"
               :: Get "https://www.investing.com/rates-bonds/japan-10-year-bond-yield" 10
               :: t) as Hshape.
  { intros r f t H. apply events_eq. rewrite H. cbn [snd trace].
    repeat (progress (rewrite <- ?app_assoc; cbn [app])). reflexivity. }
  destruct (calculate_metrics _ _ _ _) as [metrics | e1];
    [| eexists; split; [exact (Hshape _ _ _ Hrun) | exact Hn]].
  destruct (change_of _ _) as [change | e2];
    [| eexists; split; [exact (Hshape _ _ _ Hrun) | exact Hn]].
  destruct (insert0 _ _) as [d1 | e3];
    [| eexists; split; [exact (Hshape _ _ _ Hrun) | exact Hn]].
  destruct (slice_to 60 d1) as [d2 | e4];
    [| eexists; split; [exact (Hshape _ _ _ Hrun) | exact Hn]].
  unfold save_data, store, log in Hrun. cbn [data_file trace] in Hrun.
  eexists. split; [| exact Hn].
  apply events_eq. rewrite Hrun.
  destruct (write_result E); cbn [snd trace];
    repeat (progress (rewrite <- ?app_assoc; cbn [app])); reflexivity.
Qed.

(** X11 — The network is called only when needed.  A run calls the
    quote provider exactly when the directory could be made, today is a
    business day and the check for today's entry said no; it sends the
    request for the yield exactly when, in addition, a quote came
    back. *)
Theorem network_only_when_needed (E : env) (w : world) :
  (existsb is_network (events (run E) w) = true
   <-> makedirs_ok E = true /\ is_business_day (now E) = true
       /\ already_updated E w = Ok false)
  /\ (existsb is_get (events (run E) w) = true
      <-> makedirs_ok E = true /\ is_business_day (now E) = true
          /\ already_updated E w = Ok false
          /\ exists q, fst (get_nikkei_price E w) = Ok (Some q)).
Proof.
  destruct (stage_loaded w) as (evs & Hw1 & _ & Hn & _).
  destruct (makedirs_ok E) eqn:Hmk.
  2:{ assert (events (run E) w = [Makedirs "data"]) as ->
        by (apply events_eq; rewrite (run_makedirs_fails E w Hmk); reflexivity).
      split; split; cbn [existsb is_network is_get orb]; try discriminate;
        intros H; decompose [and] H; discriminate. }
  destruct (is_business_day (now E)) eqn:Hbd.
  2:{ assert (events (run E) w = [Makedirs "data"]) as ->
        by (apply events_eq; rewrite (run_not_business_day E w Hbd); reflexivity).
      split; split; cbn [existsb is_network is_get orb]; try discriminate;
        intros H; decompose [and] H; discriminate. }
  destruct (already_updated E w) as [[|] | e] eqn:Hu.
  - assert (events (run E) w = Makedirs "data" :: evs) as ->.
    { apply events_eq. rewrite (run_checked E w Hmk Hbd), Hw1
        by (rewrite Hu; discriminate). reflexivity. }
    cbn [existsb is_network is_get orb].
    rewrite Hn, (existsb_get_network _ Hn).
    split; split; try discriminate; intros H; decompose [and] H; discriminate.
  - destruct (get_nikkei_price_result E) as [o Ho].
    assert (fst (get_nikkei_price E w) = Ok o) as Hq by (rewrite Ho; reflexivity).
    destruct o as [q |].
    + destruct (run_fetched_events E w q Hmk Hbd Hu Hq) as (evs' & tail & -> & Hn').
      cbn [existsb is_network is_get orb].
      rewrite !existsb_app. cbn [existsb is_network is_get orb].
      rewrite !orb_true_r.
      split; split; intros _; repeat split; try reflexivity.
      exists q. exact Hq.
    + assert (events (run E) w = Makedirs "data" :: evs ++ [History ticker "5d"]) as ->.
      { apply events_eq. rewrite (run_no_quote E w Hmk Hbd Hu Hq), Hw1.
        unfold log. cbn [snd trace].
        repeat (progress (rewrite <- ?app_assoc; cbn [app])). reflexivity. }
      cbn [existsb is_network is_get orb]. rewrite !existsb_app.
      cbn [existsb is_network is_get orb].
      rewrite (existsb_get_network _ Hn), orb_true_r.
      split; split; try discriminate; try (intros _; repeat split; reflexivity).
      intros (_ & _ & _ & q & Hq'). rewrite Hq in Hq'. discriminate.
  - assert (events (run E) w = Makedirs "data" :: evs) as ->.
    { apply events_eq. rewrite (run_checked E w Hmk Hbd), Hw1
        by (rewrite Hu; discriminate). reflexivity. }
    cbn [existsb is_network is_get orb].
    rewrite Hn, (existsb_get_network _ Hn).
    split; split; try discriminate; intros H; decompose [and] H; discriminate.
Qed.

Lemma existsb_false_filter {A} (f : A -> bool) (l : list A) :
  existsb f l = false -> filter f l = [].
Proof.
  induction l as [| a l IH]; [reflexivity |]. cbn [existsb filter].
  intro H. apply orb_false_iff in H. destruct H as [-> H]. exact (IH H).
Qed.

(** X12 — At most one write, and a bounded one.  A run hands a
    document to [save_data] at most once, as its last call, and then
    returns normally; whatever the length of the stored history, the
    document handed over is a list of at most 60 entries whose first
    entry is dated today. *)
Theorem single_bounded_write (E : env) (w : world) :
  filter is_write (events (run E) w) = []
  \/ exists evs new_entry kept,
      events (run E) w
      = evs ++ [WriteFile data_file_path (PyList (PyDict new_entry :: kept))]
      /\ filter is_write evs = []
      /\ fst (run E w) = Ok tt
      /\ entry_date (PyDict new_entry) = Some (strftime_Ymd (now E))
      /\ (List.length (PyDict new_entry :: kept) <= 60)%nat.
Proof.
  destruct (run_cases E w)
    as [[_ Hq] | (items & q & metrics & change & evs & _ & _ & _ & _ & _ & Hcm
                  & _ & Hrun)].
  - left. exact (existsb_false_filter _ _ Hq).
  - right. cbv zeta in Hrun. destruct Hrun as (Hok & Hev & Hw & _).
    exists evs, (entry_of E q (PyNum (Float (float_lit 1485 3))) metrics change),
      (firstn 59 items).
    split; [exact Hev |].
    split; [exact (existsb_false_filter _ _ Hw) |].
    split; [exact Hok |].
    split.
    + cbn [entry_date].
      rewrite (entry_of_date E q _ change _ _ _ _ _ Hcm). reflexivity.
    + cbn [List.length]. pose proof (firstn_le_length 59 items). lia.
Qed.

(** ** Runs one after the other *)



Lemma run_keeps_well_formed (E : env) (w : world) :
  well_formed (data_file w) -> well_formed (data_file (snd (run E w))).
Proof.
  intros (items & Hd & Hlen & Hnd).
  destruct (run_cases E w)
    as [[Hf _] | (items' & q & metrics & change & evs & _ & _ & Hl & Hany & _
                  & Hcm & _ & Hrun)].
  - rewrite Hf. exists items. repeat split; assumption.
  - rewrite load_document, Hd in Hl. inversion Hl; subst items'.
    cbv zeta in Hrun. destruct Hrun as (_ & _ & _ & Hf).
    rewrite Hf. unfold saved. destruct (write_result E).
    + eexists. split; [reflexivity |].
      split; [apply firstn_le_length |].
      unfold dates. rewrite <- firstn_map. apply NoDup_firstn.
      cbn [map entry_date].
      rewrite (entry_of_date E q _ change _ _ _ _ _ Hcm).
      constructor; [exact (any_date_dates _ _ Hany) | exact Hnd].
    + exists items. repeat split; assumption.
    + exists []. repeat split; [cbn; lia | constructor].
Qed.

(** X14 — The retention bound and the distinct dates survive any
    sequence of runs.  Starting from a file that holds at most 60 entries
    with pairwise distinct dates (or no readable document), the file
    after any number of runs, on any days and with any answers from the
    collaborators, again holds at most 60 entries with pairwise distinct
    dates. *)
Theorem runs_keep_well_formed (Es : list env) (w : world) :
  well_formed (data_file w) -> well_formed (data_file (runs Es w)).
Proof.
  revert w. induction Es as [| E Es IH]; intros w H; [exact H |].
  unfold runs. cbn [fold_left]. apply IH. apply run_keeps_well_formed. exact H.
Qed.

Lemma runs_keep_well_formed_witness :
  well_formed
    (data_file
       (runs [sample_env wednesday (nearest 40000);
              sample_env saturday (nearest 40100);
              sample_env {| year := 2026; month := 11; day := 5 |}
                         (nearest 40200)]
             (sample_world (sample_history 60)))).
Proof.
  apply runs_keep_well_formed.
  exists (sample_history 60). split; [reflexivity |].
  split.
  - vm_compute. repeat constructor.
  - apply nodupb_sound. vm_compute. reflexivity.
Defined.

Lemma get_nikkei_price_ext (E E' : env) (w w' : world) :
  history_response E' = history_response E ->
  fst (get_nikkei_price E' w') = fst (get_nikkei_price E w).
Proof.
  intro H. unfold get_nikkei_price. mstep. rewrite H.
  destruct (history_response E) as [e | rows]; [reflexivity |].
  destruct (rev rows) as [| latest init]; [reflexivity |].
  destruct (int_of_float _); reflexivity.
Qed.

(** X15 — A missing or unreadable file is replaced.  When the file is
    absent, or present but not readable as JSON, the run starts from the
    empty history: if a quote comes back and the metrics can be computed,
    it writes a document with the single new entry, whose change is the
    int 0; what an unreadable file held is lost. *)
Theorem unreadable_file_is_replaced (E : env) (w : world) (q : quote)
        (metrics : dict) :
  data_file w = Absent \/ data_file w = Unreadable ->
  makedirs_ok E = true ->
  is_business_day (now E) = true ->
  fst (get_nikkei_price E w) = Ok (Some q) ->
  calculate_metrics (Float (price q)) default_eps default_bps default_dividend
    = Ok metrics ->
  write_result E = Written ->
  fst (run E w) = Ok tt
  /\ data_file (snd (run E w))
     = Document (PyList [PyDict (entry_of E q (PyNum (Float (float_lit 1485 3)))
                                          metrics (PyNum (Int 0)))])
  /\ lookup "change" (entry_of E q (PyNum (Float (float_lit 1485 3)))
                               metrics (PyNum (Int 0)))
     = Some (PyNum (Int 0)).
Proof.
  intros Hf Hmk Hbd Hq Hcm Hwr.
  assert (fst (load_existing_data w) = Ok (PyList [])) as Hl.
  { rewrite load_document. destruct Hf as [-> | ->]; reflexivity. }
  destruct (run_success E w [] q metrics (PyNum (Int 0)) Hmk Hbd Hl eq_refl Hq
              Hcm eq_refl) as (Hok & _ & Hd).
  unfold saved in Hd. rewrite Hwr in Hd.
  split; [exact Hok |].
  split; [exact Hd |].
  exact (entry_of_change E q _ _ _ _ _ _ _ Hcm).
Qed.

Lemma unreadable_file_is_replaced_witness :
  exists new_entry,
    data_file (snd (run (sample_env wednesday (nearest 40000))
                        {| data_file := Unreadable; trace := [] |}))
    = Document (PyList [PyDict new_entry])
    /\ lookup "change" new_entry = Some (PyNum (Int 0)).
Proof.
  destruct (calculate_metrics (Float (nearest 40000)) default_eps default_bps
              default_dividend) as [metrics |] eqn:Hcm;
    [| vm_compute in Hcm; discriminate].
  destruct (unreadable_file_is_replaced (sample_env wednesday (nearest 40000))
              {| data_file := Unreadable; trace := [] |}
              {| price := nearest 40000; volume := 123; date := "2026-11-04" |}
              metrics) as (_ & Hd & Hc).
  - right. reflexivity.
  - reflexivity.
  - vm_compute. reflexivity.
  - vm_compute. reflexivity.
  - exact Hcm.
  - reflexivity.
  - eexists. split; [exact Hd | exact Hc].
Defined.

(** X16 — A save that cannot open the file is silent, and the next run
    tries again.  When the run reaches [save_data] and the file cannot
    be opened, the run still returns normally and the file is as it was;
    so a later run at the same time, with the same quote history and a
    directory that can be made, reaches [save_data] again. *)
Theorem failed_save_is_retried (E E' : env) (w : world) :
  write_result E = OpenFails ->
  existsb is_write (events (run E) w) = true ->
  makedirs_ok E' = true ->
  now E' = now E ->
  history_response E' = history_response E ->
  fst (run E w) = Ok tt
  /\ data_file (snd (run E w)) = data_file w
  /\ existsb is_write (events (run E') (snd (run E w))) = true.
Proof.
  intros Hwr Hw Hmk' Hnow Hhist.
  destruct (run_cases E w)
    as [Hq | (items & q & metrics & change & evs & _ & Hbd & Hl & Hany & Hq
              & Hcm & Hch & Hrun)].
  - destruct (quiet_not_written E w Hq Hw).
  - cbv zeta in Hrun. destruct Hrun as (Hok & _ & _ & Hf).
    unfold saved in Hf. rewrite Hwr in Hf.
    split; [exact Hok |]. split; [exact Hf |].
    assert (fst (load_existing_data (snd (run E w))) = Ok (PyList items)) as Hl'.
    { rewrite load_document, Hf, <- load_document. exact Hl. }
    assert (fst (get_nikkei_price E' (snd (run E w))) = Ok (Some q)) as Hq'.
    { rewrite (get_nikkei_price_ext E E' w _ Hhist). exact Hq. }
    rewrite <- Hnow in Hbd, Hany.
    exact (proj1 (proj2 (run_success E' (snd (run E w)) items q metrics change
                           Hmk' Hbd Hl' Hany Hq' Hcm Hch))).
Qed.

Lemma failed_save_is_retried_witness :
  existsb is_write
    (events (run (sample_env wednesday (nearest 40000)))
            (snd (run {| makedirs_ok := true; now := wednesday;
                         history_response := sample_frame (nearest 40000);
                         get_response := Response 503;
                         write_result := OpenFails |}
                      (sample_world (sample_history 2)))))
  = true.
Proof.
  apply (failed_save_is_retried
           {| makedirs_ok := true; now := wednesday;
              history_response := sample_frame (nearest 40000);
              get_response := Response 503;
              write_result := OpenFails |}
           (sample_env wednesday (nearest 40000))
           (sample_world (sample_history 2))).
  - reflexivity.
  - vm_compute. reflexivity.
  - reflexivity.
  - reflexivity.
  - reflexivity.
Defined.
